(** * TPIMS truck-parking poller: the normalizers and the poll cycle

    A shallow embedding of [poller.py].  The program works on decoded JSON
    documents, so the development starts with the values [json.loads]
    returns and with the handful of Python built-ins the program applies to
    them ([dict.get], [int], [str], [len], indexing, [in], [str.split],
    truthiness, dictionary keys).  The two normalizers [parse_standard] and
    [parse_indiana] and the orchestrator [main] follow, statement by
    statement, and the properties of the specification come last.

    Modelling conventions.
    - A Python [str] is a [string] whose characters are code points below
      256; text outside Latin-1 is outside the model.
    - A Python [float] is a binary64 value, [PrimFloat.float].
    - A Python [dict] is an association list in insertion order whose keys
      are pairwise different (a decoded JSON object never repeats a key).
    - A call either returns a value or raises: [result].  Only the
      exception classes the program can meet are listed in [exn].
    - [int] of a text of more than 4300 digits raises [ValueError], the
      interpreter's default limit; [json.loads] obeys the same limit, so a
      decoded integer has at most 4300 digits.
    - The calls of [print] are left out. *)

From Stdlib Require Import ZArith List String Ascii Bool Lia.
From Stdlib Require Import Floats.
From Stdlib Require Import DecimalString.
Import ListNotations.
Open Scope string_scope.
Open Scope Z_scope.

(* ================================================================= *)
(** ** Values and exceptions *)

#[warnings="-register-all"] Inductive json : Type :=
| JNull
| JBool (b : bool)
| JInt (n : Z)
| JFloat (f : float)
| JStr (s : string)
| JList (items : list json)
| JDict (fields : list (string * json)).

Inductive exn : Type :=
| TypeError | ValueError | AttributeError | KeyError | IndexError | OverflowError.

Inductive result (A : Type) : Type :=
| Ok (a : A)
| Raise (e : exn).
Arguments Ok {A} a.
Arguments Raise {A} e.

Definition bind {A B : Type} (c : result A) (k : A -> result B) : result B :=
  match c with
  | Ok a => k a
  | Raise e => Raise e
  end.

Notation "x <- c ;; k" := (bind c (fun x => k))
  (at level 61, c at next level, right associativity).

(** [for x in xs: ys.append(f(x))], stopping at the first exception. *)
Fixpoint mapM {A B : Type} (f : A -> result B) (xs : list A) : result (list B) :=
  match xs with
  | [] => Ok []
  | x :: rest =>
      y <- f x ;;
      ys <- mapM f rest ;;
      Ok (y :: ys)
  end.

Definition exn_eqb (a b : exn) : bool :=
  match a, b with
  | TypeError, TypeError | ValueError, ValueError
  | AttributeError, AttributeError | KeyError, KeyError
  | IndexError, IndexError | OverflowError, OverflowError => true
  | _, _ => false
  end.

(** [try: x = c  except (E1, ..., En): x = v]: the listed exceptions are
    replaced by [v], every other one propagates. *)
Definition try_except {A : Type} (c : result A) (caught : list exn) (v : A) : result A :=
  match c with
  | Ok a => Ok a
  | Raise e => if existsb (exn_eqb e) caught then Ok v else Raise e
  end.

(* ================================================================= *)
(** ** Text of numbers *)

Definition str_of_Z (n : Z) : string := NilZero.string_of_int (Z.to_int n).

Fixpoint zeros (n : nat) : string :=
  match n with
  | O => ""
  | S k => String "0" (zeros k)
  end.

(** *** [repr] of a float: the shortest decimal that reads back as the
    same binary64, the nearest one among the shortest. *)

Record frac : Type := Frac { fnum : Z; fden : Z }.

Definition frac_cmp (x y : frac) : comparison :=
  Z.compare (fnum x * fden y) (fnum y * fden x).
Definition frac_ltb (x y : frac) : bool :=
  match frac_cmp x y with Lt => true | _ => false end.
Definition frac_leb (x y : frac) : bool :=
  match frac_cmp x y with Gt => false | _ => true end.
Definition bin_frac (m e : Z) : frac :=
  if 0 <=? e then Frac (m * 2 ^ e) 1 else Frac m (2 ^ (- e)).
Definition dec_frac (d q : Z) : frac :=
  if 0 <=? q then Frac (d * 10 ^ q) 1 else Frac d (10 ^ (- q)).
Definition frac_floor (x : frac) : Z := fnum x / fden x.
Definition frac_div (x y : frac) : frac :=
  Frac (fnum x * fden y) (fden x * fnum y).
Definition frac_dist (x y : frac) : frac :=
  Frac (Z.abs (fnum x * fden y - fnum y * fden x)) (fden x * fden y).

(** The least [k] from a starting point on with [x < 10^k]. *)
Fixpoint decpt_from (fuel : nat) (x : frac) (k : Z) : Z :=
  match fuel with
  | O => k
  | S fuel' => if frac_ltb x (dec_frac 1 k) then k else decpt_from fuel' x (k + 1)
  end.

Definition decimal_point (m e : Z) : Z :=
  decpt_from 8 (bin_frac m e) ((Z.log2 m + e) * 30103 / 100000 - 2).

(** Is the fraction [c] rounded to the double [m * 2^e]?  The bounds are the
    midpoints to the neighbouring doubles, included when [m] is even. *)
Definition in_interval (m e : Z) (c : frac) : bool :=
  let lo := if (m =? 2 ^ 52) && (-1074 <? e)
            then bin_frac (4 * m - 1) (e - 2)
            else bin_frac (2 * m - 1) (e - 1) in
  let hi := bin_frac (2 * m + 1) (e - 1) in
  if Z.even m then frac_leb lo c && frac_leb c hi
  else frac_ltb lo c && frac_ltb c hi.

Definition digits_at (m e k n : Z) : option Z :=
  let x := bin_frac m e in
  let q := k - n in
  let d1 := frac_floor (frac_div x (dec_frac 1 q)) in
  let d2 := d1 + 1 in
  match in_interval m e (dec_frac d1 q), in_interval m e (dec_frac d2 q) with
  | false, false => None
  | true, false => Some d1
  | false, true => Some d2
  | true, true =>
      match frac_cmp (frac_dist x (dec_frac d1 q)) (frac_dist (dec_frac d2 q) x) with
      | Lt => Some d1
      | Gt => Some d2
      | Eq => Some (if Z.even d1 then d1 else d2)
      end
  end.

Fixpoint shortest_from (fuel : nat) (m e k n : Z) : Z * Z :=
  match fuel with
  | O => (m, 0)
  | S fuel' =>
      match digits_at m e k n with
      | Some d => (d, n)
      | None => shortest_from fuel' m e k (n + 1)
      end
  end.

Fixpoint strip_zeros (fuel : nat) (d : Z) : Z :=
  match fuel with
  | O => d
  | S fuel' =>
      if (d mod 10 =? 0) && negb (d =? 0) then strip_zeros fuel' (d / 10) else d
  end.

(** The digits and the position of the decimal point:
    the value printed is [0.DIGITS * 10^decpt]. *)
Definition shortest_digits (m e : Z) : string * Z :=
  let k := decimal_point m e in
  let '(d, n) := shortest_from 17 m e k 1 in
  (str_of_Z (strip_zeros 20 d), if d =? 10 ^ n then k + 1 else k).

Definition format_float (digits : string) (decpt : Z) : string :=
  let n := Z.of_nat (String.length digits) in
  if (decpt <=? -4) || (16 <? decpt) then
    let x := decpt - 1 in
    let mant := match digits with
                | String c EmptyString => String c EmptyString
                | String c rest => String c ("." ++ rest)
                | EmptyString => EmptyString
                end in
    let ex := str_of_Z (Z.abs x) in
    mant ++ "e" ++ (if x <? 0 then "-" else "+")
         ++ (if Z.abs x <? 10 then "0" ++ ex else ex)
  else if decpt <=? 0 then
    "0." ++ zeros (Z.to_nat (- decpt)) ++ digits
  else if decpt <? n then
    substring 0 (Z.to_nat decpt) digits ++ "."
      ++ substring (Z.to_nat decpt) (Z.to_nat (n - decpt)) digits
  else
    digits ++ zeros (Z.to_nat (decpt - n)) ++ ".0".

Definition float_repr (f : float) : string :=
  match Prim2SF f with
  | S754_nan => "nan"
  | S754_infinity s => if s then "-inf" else "inf"
  | S754_zero s => if s then "-0.0" else "0.0"
  | S754_finite s m e =>
      let '(digits, decpt) := shortest_digits (Z.pos m) e in
      (if s then "-" else "") ++ format_float digits decpt
  end.

(** *** [repr] of a string *)

Definition dquote : ascii := ascii_of_nat 34.
Definition squote : ascii := ascii_of_nat 39.
Definition backslash : ascii := ascii_of_nat 92.

Fixpoint has_char (c : ascii) (s : string) : bool :=
  match s with
  | EmptyString => false
  | String x rest => Ascii.eqb x c || has_char c rest
  end.

Definition hex_digit (n : nat) : ascii :=
  if Nat.ltb n 10 then ascii_of_nat (48 + n) else ascii_of_nat (87 + n).

Definition hex_escape (n : nat) : string :=
  String backslash (String "x"
    (String (hex_digit (Nat.div n 16)) (String (hex_digit (Nat.modulo n 16)) EmptyString))).

(** [str.isprintable] on Latin-1. *)
Definition printable (n : nat) : bool :=
  (Nat.leb 32 n && Nat.leb n 126)
  || (Nat.leb 161 n && Nat.leb n 255 && negb (Nat.eqb n 173)).

Definition escape_char (quote c : ascii) : string :=
  let n := nat_of_ascii c in
  if Ascii.eqb c quote || Ascii.eqb c backslash then String backslash (String c EmptyString)
  else if Nat.eqb n 9 then String backslash "t"
  else if Nat.eqb n 10 then String backslash "n"
  else if Nat.eqb n 13 then String backslash "r"
  else if printable n then String c EmptyString
  else hex_escape n.

Fixpoint escape_all (quote : ascii) (s : string) : string :=
  match s with
  | EmptyString => EmptyString
  | String c rest => escape_char quote c ++ escape_all quote rest
  end.

Definition str_repr (s : string) : string :=
  let quote := if has_char squote s && negb (has_char dquote s) then dquote else squote in
  String quote (escape_all quote s ++ String quote EmptyString).

(** *** [int] of a string, base ten *)

Definition is_digit (c : ascii) : bool :=
  let n := nat_of_ascii c in Nat.leb 48 n && Nat.leb n 57.

Definition is_space (c : ascii) : bool :=
  let n := nat_of_ascii c in
  (Nat.leb 9 n && Nat.leb n 13) || Nat.eqb n 32 || Nat.eqb n 133 || Nat.eqb n 160.

Fixpoint lstrip (s : string) : string :=
  match s with
  | String c rest => if is_space c then lstrip rest else s
  | EmptyString => EmptyString
  end.

(** Drops trailing blanks: a blank is kept only when something else follows. *)
Fixpoint rstrip (s : string) : string :=
  match s with
  | EmptyString => EmptyString
  | String c rest =>
      match rstrip rest with
      | EmptyString => if is_space c then EmptyString else String c EmptyString
      | kept => String c kept
      end
  end.

(** Digits, single underscores allowed between two digits; [acc] is the value
    read so far and [after_digit] tells whether the last character was a digit. *)
Fixpoint read_digits (s : string) (acc : Z) (after_digit : bool) : option Z :=
  match s with
  | EmptyString => if after_digit then Some acc else None
  | String c rest =>
      if is_digit c then
        read_digits rest (10 * acc + Z.of_nat (nat_of_ascii c - 48)) true
      else if Ascii.eqb c "_" && after_digit then read_digits rest acc false
      else None
  end.

Fixpoint count_digits (s : string) : nat :=
  match s with
  | EmptyString => O
  | String c rest => if is_digit c then S (count_digits rest) else count_digits rest
  end.

(** [sys.int_info.default_max_str_digits] *)
Definition max_str_digits : Z := 4300.

(** [None] stands for [ValueError]: a text that is no decimal integer, or
    one with more digits, leading zeros included, than the limit. *)
Definition int_of_str (s : string) : option Z :=
  let text := rstrip (lstrip s) in
  if max_str_digits <? Z.of_nat (count_digits text) then None
  else
    match text with
    | String "-" body => option_map Z.opp (read_digits body 0 false)
    | String "+" body => read_digits body 0 false
    | body => read_digits body 0 false
    end.

(* ================================================================= *)
(** ** The built-ins the program applies to decoded JSON *)

Definition is_list (v : json) : bool :=
  match v with JList _ => true | _ => false end.

Definition is_dict (v : json) : bool :=
  match v with JDict _ => true | _ => false end.

(** [bool(v)], the test of [if v], [v or w] and [a and v]. *)
Definition truthy (v : json) : bool :=
  match v with
  | JNull => false
  | JBool b => b
  | JInt n => negb (n =? 0)
  | JFloat f => negb (PrimFloat.eqb f 0%float)
  | JStr s => negb (String.eqb s "")
  | JList items => match items with [] => false | _ => true end
  | JDict fields => match fields with [] => false | _ => true end
  end.

(** [v or w] *)
Definition py_or (v w : json) : json := if truthy v then v else w.

Fixpoint chars_of (s : string) : list json :=
  match s with
  | EmptyString => []
  | String c rest => JStr (String c EmptyString) :: chars_of rest
  end.

(** What [for x in v] runs through. *)
Definition py_iter (v : json) : result (list json) :=
  match v with
  | JList items => Ok items
  | JStr s => Ok (chars_of s)
  | JDict fields => Ok (map (fun kv => JStr (fst kv)) fields)
  | _ => Raise TypeError
  end.

Fixpoint assoc {A : Type} (key : string) (fields : list (string * A)) : option A :=
  match fields with
  | [] => None
  | (k, v) :: rest => if String.eqb k key then Some v else assoc key rest
  end.

(** [v.get(key, default)]; only a dict has the method. *)
Definition py_get (v : json) (key : string) (default : json) : result json :=
  match v with
  | JDict fields => Ok (match assoc key fields with Some x => x | None => default end)
  | _ => Raise AttributeError
  end.

(** [d[key]] on a dict with string keys. *)
Definition subscript {A : Type} (d : list (string * A)) (key : string) : result A :=
  match assoc key d with
  | Some x => Ok x
  | None => Raise KeyError
  end.

(** [int(f)] truncates towards zero. *)
Definition float_trunc (f : float) : result Z :=
  match Prim2SF f with
  | S754_nan => Raise ValueError
  | S754_infinity _ => Raise OverflowError
  | S754_zero _ => Ok 0
  | S754_finite s m e =>
      let a := Z.shiftl (Z.pos m) e in Ok (if s then - a else a)
  end.

(** [int(v)] *)
Definition py_int (v : json) : result Z :=
  match v with
  | JBool b => Ok (if b then 1 else 0)
  | JInt n => Ok n
  | JFloat f => float_trunc f
  | JStr s => match int_of_str s with Some n => Ok n | None => Raise ValueError end
  | JNull | JList _ | JDict _ => Raise TypeError
  end.

Fixpoint join (sep : string) (parts : list string) : string :=
  match parts with
  | [] => ""
  | [p] => p
  | p :: rest => p ++ sep ++ join sep rest
  end.

(** [repr(v)] *)
Fixpoint py_repr (v : json) : string :=
  match v with
  | JNull => "None"
  | JBool b => if b then "True" else "False"
  | JInt n => str_of_Z n
  | JFloat f => float_repr f
  | JStr s => str_repr s
  | JList items => "[" ++ join ", " (map py_repr items) ++ "]"
  | JDict fields =>
      "{" ++ join ", " (map (fun kv => str_repr (fst kv) ++ ": " ++ py_repr (snd kv)) fields)
          ++ "}"
  end.

(** [str(v)]: a string is itself, everything else prints as its [repr]. *)
Definition py_str (v : json) : string :=
  match v with
  | JStr s => s
  | _ => py_repr v
  end.

(** [len(v)] *)
Definition py_len (v : json) : result Z :=
  match v with
  | JList items => Ok (Z.of_nat (List.length items))
  | JStr s => Ok (Z.of_nat (String.length s))
  | JDict fields => Ok (Z.of_nat (List.length fields))
  | _ => Raise TypeError
  end.

(** [v[i]] for a literal index [i >= 0]; a decoded JSON object has no
    integer key. *)
Definition py_index (v : json) (i : nat) : result json :=
  match v with
  | JList items =>
      match nth_error items i with Some x => Ok x | None => Raise IndexError end
  | JStr s =>
      match String.get i s with
      | Some c => Ok (JStr (String c EmptyString))
      | None => Raise IndexError
      end
  | JDict _ => Raise KeyError
  | _ => Raise TypeError
  end.

(** [v == s] for a string [s] *)
Definition eq_str (v : json) (s : string) : bool :=
  match v with JStr t => String.eqb t s | _ => false end.

Definition is_substring (needle hay : string) : bool :=
  match index 0 needle hay with Some _ => true | None => false end.

(** [needle in v] for a string [needle] *)
Definition py_contains (needle : string) (v : json) : result bool :=
  match v with
  | JStr s => Ok (is_substring needle s)
  | JList items => Ok (existsb (fun x => eq_str x needle) items)
  | JDict fields => Ok (existsb (fun kv => String.eqb (fst kv) needle) fields)
  | _ => Raise TypeError
  end.

(** [v.split(sep)[0]] for a non-empty [sep]: the text before the first
    separator, all of it when there is none. *)
Definition py_split_first (v : json) (sep : string) : result json :=
  match v with
  | JStr s =>
      Ok (JStr (match index 0 sep s with Some i => substring 0 i s | None => s end))
  | _ => Raise AttributeError
  end.

(** *** Dictionaries keyed by decoded JSON values *)

Definition as_int (v : json) : option Z :=
  match v with
  | JBool b => Some (if b then 1 else 0)
  | JInt n => Some n
  | _ => None
  end.

(** Is the double exactly the integer [n]? *)
Definition float_is_Z (f : float) (n : Z) : bool :=
  match Prim2SF f with
  | S754_zero _ => n =? 0
  | S754_finite s m e =>
      let a := if s then Z.neg m else Z.pos m in
      if 0 <=? e then a * 2 ^ e =? n
      else (a mod 2 ^ (- e) =? 0) && (a / 2 ^ (- e) =? n)
  | _ => false
  end.

(** Do two keys name the same dictionary entry?  Numbers compare by value
    across [bool], [int] and [float]; the decoder hands out one NaN object,
    which a dictionary finds by identity. *)
Definition key_eq (a b : json) : bool :=
  match as_int a, as_int b with
  | Some x, Some y => x =? y
  | Some x, None => match b with JFloat g => float_is_Z g x | _ => false end
  | None, Some y => match a with JFloat f => float_is_Z f y | _ => false end
  | None, None =>
      match a, b with
      | JNull, JNull => true
      | JStr s, JStr t => String.eqb s t
      | JFloat f, JFloat g => PrimFloat.eqb f g || (is_nan f && is_nan g)
      | _, _ => false
      end
  end.

Definition hashable (v : json) : bool := negb (is_list v || is_dict v).

Definition pydict : Type := list (json * json).

Fixpoint find_entry (d : pydict) (k : json) : option json :=
  match d with
  | [] => None
  | (k', v) :: rest => if key_eq k' k then Some v else find_entry rest k
  end.

(** An existing entry keeps its place and its key and takes the new value;
    a new key goes last. *)
Fixpoint set_entry (d : pydict) (k v : json) : pydict :=
  match d with
  | [] => [(k, v)]
  | (k', v') :: rest =>
      if key_eq k' k then (k', v) :: rest else (k', v') :: set_entry rest k v
  end.

(** [d[k] = v] *)
Definition dict_setitem (d : pydict) (k v : json) : result pydict :=
  if hashable k then Ok (set_entry d k v) else Raise TypeError.

(** [d.get(k, default)] *)
Definition dict_get (d : pydict) (k default : json) : result json :=
  if hashable k
  then Ok (match find_entry d k with Some v => v | None => default end)
  else Raise TypeError.

(* ================================================================= *)
(** ** Rows *)

(** The dict a normalizer appends, key by key.  Every value is a Python
    value: [JNull] is [None], [JInt] an [int], [JStr] a [str]. *)
Record row : Type := Row {
  state : json;
  site_id : json;
  name : json;
  highway : json;
  direction : json;
  latitude : json;
  longitude : json;
  capacity : json;
  available_spaces : json;
  trend : json;
  is_open : json;
  trust_data : json;
  source_timestamp : json
}.

(** [try: x = int(x)  except (TypeError, ValueError): x = None] *)
Definition int_or_none (v : json) : result json :=
  try_except (n <- py_int v ;; Ok (JInt n)) [TypeError; ValueError] JNull.

(* ================================================================= *)
(** ** parse_standard *)

(** Line 46, [{d.get('siteId', ''): d for d in ...}], entry after entry. *)
Fixpoint build_lookup (ds : list json) (acc : pydict) : result pydict :=
  match ds with
  | [] => Ok acc
  | d :: rest =>
      k <- py_get d "siteId" (JStr "") ;;
      acc' <- dict_setitem acc k d ;;
      build_lookup rest acc'
  end.

(** Lines 50-54. *)
Definition normalize_location (loc : json) : result json :=
  if is_list loc && truthy loc then py_index loc 0
  else if negb (is_dict loc) then Ok (JDict [])
  else Ok loc.

(** Lines 49-83, the body of the loop over the static records. *)
Definition standard_row (state : json) (dyn_lookup : pydict) (s : json) : result row :=
  sid <- py_get s "siteId" (JStr "") ;;
  loc <- py_get s "location" (JDict []) ;;
  loc <- normalize_location loc ;;
  dyn <- dict_get dyn_lookup sid (JDict []) ;;
  dyn_cap <- py_get dyn "capacity" JNull ;;
  cap <- py_get s "capacity" dyn_cap ;;
  cap <- int_or_none cap ;;
  avail <- py_get dyn "reportedAvailable" JNull ;;
  avail <- int_or_none avail ;;
  v_name <- py_get s "name" (JStr "") ;;
  v_highway <- py_get s "relevantHighway" (JStr "") ;;
  v_direction <- py_get s "directionOfTravel" (JStr "") ;;
  v_latitude <- py_get loc "latitude" JNull ;;
  v_longitude <- py_get loc "longitude" JNull ;;
  v_trend <- py_get dyn "trend" (JStr "") ;;
  v_open <- py_get dyn "open" (JStr "") ;;
  v_trust <- py_get dyn "trustData" (JStr "") ;;
  static_ts <- py_get s "timeStamp" (JStr "") ;;
  v_ts <- py_get dyn "timeStamp" static_ts ;;
  Ok {| state := state;
        site_id := sid;
        name := v_name;
        highway := v_highway;
        direction := v_direction;
        latitude := v_latitude;
        longitude := v_longitude;
        capacity := cap;
        available_spaces := avail;
        trend := v_trend;
        is_open := JStr (py_str v_open);
        trust_data := JStr (py_str v_trust);
        source_timestamp := v_ts |}.

(** What [for x in (l or [])] runs through. *)
Definition records_of (l : json) : result (list json) :=
  py_iter (py_or l (JList [])).

Definition parse_standard (state static_list dynamic_list : json) : result (list row) :=
  ds <- records_of dynamic_list ;;
  dyn_lookup <- build_lookup ds [] ;;
  ss <- records_of static_list ;;
  mapM (standard_row state dyn_lookup) ss.

(* ================================================================= *)
(** ** parse_indiana *)

(** Lines 102-108: a negative count is dropped inside the [try]. *)
Definition spaces_or_none (v : json) : result json :=
  try_except (n <- py_int v ;; Ok (if n <? 0 then JNull else JInt n))
             [TypeError; ValueError] JNull.

(** Lines 110-111. *)
Definition open_of_status (status : json) : json :=
  if eq_str status "open" then JStr "True"
  else if eq_str status "closed" then JStr "False"
  else JStr "".

(** Line 118. *)
Definition direction_of (props : json) : result json :=
  label <- py_get props "site_area_label" (JStr "") ;;
  dash <- py_contains "-" label ;;
  if dash then
    label <- py_get props "site_area_label" (JStr "") ;;
    py_split_first label "-"
  else Ok (JStr "").

(** Lines 119 and 120: [coords[i] if len(coords) >= 2 else None]. *)
Definition coordinate (coords : json) (i : nat) : result json :=
  n <- py_len coords ;;
  if 2 <=? n then py_index coords i else Ok JNull.

(** Lines 91-127, the body of the loop over the features. *)
Definition indiana_row (feat : json) : result row :=
  props <- py_get feat "properties" (JDict []) ;;
  geo <- py_get feat "geometry" (JDict []) ;;
  coords <- py_get geo "coordinates" (JList [JNull; JNull]) ;;
  tpims <- py_get props "tpims" (JDict []) ;;
  cap <- py_get tpims "capacity" JNull ;;
  cap <- int_or_none cap ;;
  avail <- py_get tpims "spaces_available" JNull ;;
  avail <- spaces_or_none avail ;;
  status <- py_get props "site_area_status" (JStr "") ;;
  feat_id <- py_get feat "id" (JStr "") ;;
  v_site <- py_get props "site_label" feat_id ;;
  location <- py_get props "site_area_location" (JStr "") ;;
  v_name <- py_get props "site_area_description" location ;;
  route <- py_get props "site_route" (JStr "") ;;
  v_highway <- py_get tpims "route" route ;;
  v_direction <- direction_of props ;;
  v_latitude <- coordinate coords 1 ;;
  v_longitude <- coordinate coords 0 ;;
  v_ts <- py_get tpims "last_data" (JStr "") ;;
  Ok {| state := JStr "Indiana";
        site_id := v_site;
        name := v_name;
        highway := v_highway;
        direction := v_direction;
        latitude := v_latitude;
        longitude := v_longitude;
        capacity := cap;
        available_spaces := avail;
        trend := JStr "";
        is_open := open_of_status status;
        trust_data := JStr "";
        source_timestamp := v_ts |}.

(** Line 88 and what the loop of line 90 runs through. *)
Definition features_of (static_data : json) : result (list json) :=
  feats <- (if is_dict static_data
            then py_get static_data "features" (JList [])
            else Ok (JList [])) ;;
  py_iter feats.

(** [dynamic_data] is a parameter of the function and appears nowhere in
    its body. *)
Definition parse_indiana (static_data dynamic_data : json) : result (list row) :=
  feats <- features_of static_data ;;
  mapM indiana_row feats.

(* ================================================================= *)
(** ** main *)

Definition FEEDS : list (string * list (string * string)) :=
  [ ("Illinois",
     [ ("dynamic", "https://truckparking.travelmidwest.com/TPIMS_Dynamic.json");
       ("static", "https://truckparking.travelmidwest.com/TPIMS_Static.json") ]);
    ("Indiana",
     [ ("dynamic", "https://content.trafficwise.org/json/tpims.json");
       ("static", "https://content.trafficwise.org/json/rest_area.json") ]);
    ("Kentucky",
     [ ("dynamic", "http://www.trimarc.org/dat/tpims/TPIMS_Dynamic.json");
       ("static", "http://www.trimarc.org/dat/tpims/TPIMS_Static.json") ]);
    ("Minnesota",
     [ ("dynamic", "http://iris.dot.state.mn.us/iris/TPIMS_dynamic");
       ("static", "http://iris.dot.state.mn.us/iris/TPIMS_static") ]) ].

(** What [datetime.now(timezone.utc)] returns, as far as the format of
    line 133 reads it. *)
Record datetime : Type := Datetime {
  year : Z; month : Z; day : Z; hour : Z; minute : Z; second : Z
}.

Definition pad2 (n : Z) : string :=
  if n <? 10 then "0" ++ str_of_Z n else str_of_Z n.

(** [strftime('%Y-%m-%dT%H:%M:%SZ')]; the C library prints the year without
    padding. *)
Definition strftime (t : datetime) : string :=
  str_of_Z (year t) ++ "-" ++ pad2 (month t) ++ "-" ++ pad2 (day t) ++ "T"
    ++ pad2 (hour t) ++ ":" ++ pad2 (minute t) ++ ":" ++ pad2 (second t) ++ "Z".

(** One call of [fetch_json]: the decoded document, or an exception with
    its text. *)
Inductive fetched : Type :=
| Fetched (data : json)
| Failed (msg : string).

(** A row once line 163 has added the key [poll_utc] to it. *)
Record bq_row : Type := BqRow {
  poll_utc : json;
  fields : row
}.

(** Lines 176-191: the dict rebuilt key by key for the warehouse; every
    key is present, so no default of [r.get] is used. *)
Definition bq_of (r : bq_row) : bq_row :=
  {| poll_utc := poll_utc r;
     fields := {| state := state (fields r);
                  site_id := site_id (fields r);
                  name := name (fields r);
                  highway := highway (fields r);
                  direction := direction (fields r);
                  latitude := latitude (fields r);
                  longitude := longitude (fields r);
                  capacity := capacity (fields r);
                  available_spaces := available_spaces (fields r);
                  trend := trend (fields r);
                  is_open := is_open (fields r);
                  trust_data := trust_data (fields r);
                  source_timestamp := source_timestamp (fields r) |} |}.

(** The world around one run: the clock, the network, the warehouse.  The
    warehouse call returns the list of row errors, empty when every row was
    taken. *)
Record world : Type := World {
  now : datetime;
  fetch_json : string -> fetched;
  insert_rows_json : list bq_row -> list json
}.

(** Lines 142-150 for the feeds of one state: the payloads stored in
    [raw[state]] and the messages appended to [errors]. *)
Fixpoint fetch_state (w : world) (state : string) (urls : list (string * string))
  : list (string * json) * list string :=
  match urls with
  | [] => ([], [])
  | (feed_type, url) :: rest =>
      let '(payloads, errors) := fetch_state w state rest in
      match fetch_json w url with
      | Fetched data => ((feed_type, data) :: payloads, errors)
      | Failed msg =>
          ((feed_type, JNull) :: payloads,
           (state ++ " " ++ feed_type ++ ": " ++ msg) :: errors)
      end
  end.

(** Lines 140-150. *)
Fixpoint fetch_all (w : world) (feeds : list (string * list (string * string)))
  : list (string * list (string * json)) * list string :=
  match feeds with
  | [] => ([], [])
  | (state, urls) :: rest =>
      let '(payloads, errors) := fetch_state w state urls in
      let '(raw, errors') := fetch_all w rest in
      ((state, payloads) :: raw, (errors ++ errors')%list)
  end.

(** [raw[state][feed] if isinstance(raw[state].get(feed), list) else []] *)
Definition list_or_empty (raw : list (string * list (string * json)))
           (state feed : string) : result json :=
  payloads <- subscript raw state ;;
  if is_list (match assoc feed payloads with Some v => v | None => JNull end)
  then payloads <- subscript raw state ;; subscript payloads feed
  else Ok (JList []).

(** Lines 153-156. *)
Fixpoint parse_standard_states (raw : list (string * list (string * json)))
         (states : list string) (all_rows : list row) : result (list row) :=
  match states with
  | [] => Ok all_rows
  | state :: rest =>
      static <- list_or_empty raw state "static" ;;
      dynamic <- list_or_empty raw state "dynamic" ;;
      rows <- parse_standard (JStr state) static dynamic ;;
      parse_standard_states raw rest (all_rows ++ rows)%list
  end.

(** Lines 153-159: [all_rows] once every state is parsed. *)
Definition parse_all (raw : list (string * list (string * json))) : result (list row) :=
  all_rows <- parse_standard_states raw ["Illinois"; "Kentucky"; "Minnesota"] [] ;;
  indiana <- subscript raw "Indiana" ;;
  static <- subscript indiana "static" ;;
  if truthy static then
    dynamic <- subscript indiana "dynamic" ;;
    rows <- parse_indiana static dynamic ;;
    Ok (all_rows ++ rows)%list
  else Ok all_rows.

(** How the process ends: [sys.exit(code)], falling off the end of [main],
    or an exception nobody catches. *)
Inductive ending : Type :=
| SysExit (code : Z)
| Returned
| Uncaught (e : exn).

Definition exit_status (e : ending) : Z :=
  match e with
  | SysExit code => code
  | Returned => 0
  | Uncaught _ => 1
  end.

Record run : Type := Run {
  ended : ending;
  parsed : list bq_row;          (* all_rows after line 163 *)
  sent : option (list bq_row);   (* the batch of line 193, if the call is made *)
  feed_errors : list string
}.

Definition main (w : world) : run :=
  let poll_str := strftime (now w) in
  let '(raw, errors) := fetch_all w FEEDS in
  match parse_all raw with
  | Raise e => Run (Uncaught e) [] None errors
  | Ok all_rows =>
      let all_rows := map (BqRow (JStr poll_str)) all_rows in
      match all_rows with
      | [] => Run (SysExit (match errors with [] => 0 | _ => 1 end)) all_rows None errors
      | _ =>
          let bq_rows := map bq_of all_rows in
          match insert_rows_json w bq_rows with
          | [] => Run Returned all_rows (Some bq_rows) errors
          | _ => Run (SysExit 1) all_rows (Some bq_rows) errors
          end
      end
  end.

(** *** The shape of [poll_utc] *)

Inductive pat : Type :=
| Digit                 (* \d *)
| Lit (c : ascii).

(** [re.match] of a pattern [^...$]: [$] also matches before one final
    newline. *)
Fixpoint matches (p : list pat) (s : string) : bool :=
  match p, s with
  | [], EmptyString => true
  | [], String c EmptyString => Nat.eqb (nat_of_ascii c) 10
  | Digit :: p', String c s' => is_digit c && matches p' s'
  | Lit a :: p', String c s' => Ascii.eqb a c && matches p' s'
  | _, _ => false
  end.

(** [^\d{4}-\d{2}-\d{2}T\d{2}:\d{2}:\d{2}Z$] *)
Definition poll_utc_pattern : list pat :=
  [Digit; Digit; Digit; Digit; Lit "-"; Digit; Digit; Lit "-"; Digit; Digit; Lit "T";
   Digit; Digit; Lit ":"; Digit; Digit; Lit ":"; Digit; Digit; Lit "Z"].

(* ================================================================= *)
(** ** What the claims speak of *)

(** [is_open] as the data model defines it. *)
Definition tri_state (v : json) : Prop :=
  v = JStr "True" \/ v = JStr "False" \/ v = JStr "".

Definition int_or_null (v : json) : Prop :=
  v = JNull \/ exists n, v = JInt n.

(** A number of JSON, or null. *)
Definition number_or_null (v : json) : bool :=
  match v with
  | JNull | JInt _ | JFloat _ => true
  | _ => false
  end.

(** The value a record holds under [key] is a JSON boolean, or the record
    has no such key. *)
Definition boolean_or_absent (key : string) (d : json) : bool :=
  match d with
  | JDict fields =>
      match assoc key fields with
      | None | Some (JBool _) => true
      | Some _ => false
      end
  | _ => true
  end.

(** No record of the dynamic list carries an identifier that names the
    same dictionary entry as [sid]. *)
Definition no_match (ds : list json) (sid : json) : Prop :=
  forall d k, In d ds -> py_get d "siteId" (JStr "") = Ok k -> key_eq k sid = false.

(** A clock reading of the years 1000 to 9999. *)
Definition clock_reading (t : datetime) : Prop :=
  1000 <= year t <= 9999 /\ 1 <= month t <= 12 /\ 1 <= day t <= 31 /\
  0 <= hour t <= 23 /\ 0 <= minute t <= 59 /\ 0 <= second t <= 59.

(** A record of a standard feed as the feeds publish it: a mapping whose
    identifier, when present, is a scalar. *)
Definition keyed_record (d : json) : bool :=
  match py_get d "siteId" (JStr "") with
  | Ok k => hashable k
  | Raise _ => false
  end.

(** A location of one of the shapes line 51 to 54 turn into a mapping. *)
Definition location_shape (loc : json) : bool :=
  match loc with
  | JList (first :: _) => is_dict first
  | _ => true
  end.

(** [int(v)] does not overflow: [v] is not an infinite float. *)
Definition countable (v : json) : bool :=
  match py_int v with
  | Raise OverflowError => false
  | _ => true
  end.

(** A static record the loop body can turn into a row on its own. *)
Definition plain_static (s : json) : bool :=
  keyed_record s
  && match py_get s "location" (JDict []) with
     | Ok loc => location_shape loc
     | Raise _ => false
     end
  && match py_get s "capacity" JNull with
     | Ok cap => countable cap
     | Raise _ => false
     end.

(** Every entry of the dictionary of line 46 comes from the dynamic list:
    its value is a record of the list, and its key the identifier of one. *)
Definition from_records (ds : list json) (d : pydict) : Prop :=
  Forall (fun kv => In (snd kv) ds /\
                    exists d', In d' ds /\ py_get d' "siteId" (JStr "") = Ok (fst kv)) d.

(** [field] is [int(v)], and [None] when [int(v)] raises one of the two
    exceptions the [except] clause lists. *)
Definition coerced_from (v field : json) : Prop :=
  match py_int v with
  | Ok n => field = JInt n
  | Raise e => field = JNull /\ (e = TypeError \/ e = ValueError)
  end.

(** The same with the filter of lines 105-106: a negative integer gives
    [None]. *)
Definition coerced_unless_negative (v field : json) : Prop :=
  match py_int v with
  | Ok n => field = if n <? 0 then JNull else JInt n
  | Raise e => field = JNull /\ (e = TypeError \/ e = ValueError)
  end.

(** *** What a row owes to the record it was made from *)

(** C1, a static record [s] and its row, given the dynamic records [ds]
    and the dictionary [lookup] built from them: [is_open] is [str] of what
    the record the dictionary returns for the site holds under [open]. *)
Definition open_printed (ds : list json) (lookup : pydict) (s : json) (r : row) : Prop :=
  exists sid dyn v,
    py_get s "siteId" (JStr "") = Ok sid /\
    dict_get lookup sid (JDict []) = Ok dyn /\
    (dyn = JDict [] \/ In dyn ds) /\
    py_get dyn "open" (JStr "") = Ok v /\
    is_open r = JStr (py_str v).

(** C2, a static record [s] and its row, given the dictionary [lookup] of
    the dynamic records: the counts are integers or null, [capacity] is the
    coercion of [s.get('capacity', dyn.get('capacity'))] and
    [available_spaces] that of [dyn.get('reportedAvailable')], [dyn] being
    what the dictionary returns for the site, and the coordinates are what
    the normalized location holds, unchanged. *)
Definition standard_numeric (lookup : pydict) (s : json) (r : row) : Prop :=
  int_or_null (capacity r) /\ int_or_null (available_spaces r) /\
  (exists sid dyn dyn_cap raw_cap raw_avail,
      py_get s "siteId" (JStr "") = Ok sid /\
      dict_get lookup sid (JDict []) = Ok dyn /\
      py_get dyn "capacity" JNull = Ok dyn_cap /\
      py_get s "capacity" dyn_cap = Ok raw_cap /\
      coerced_from raw_cap (capacity r) /\
      py_get dyn "reportedAvailable" JNull = Ok raw_avail /\
      coerced_from raw_avail (available_spaces r)) /\
  (exists loc0 loc,
      py_get s "location" (JDict []) = Ok loc0 /\
      normalize_location loc0 = Ok loc /\
      py_get loc "latitude" JNull = Ok (latitude r) /\
      py_get loc "longitude" JNull = Ok (longitude r)).

(** C2, a feature and its row. *)
Definition indiana_numeric (feat : json) (r : row) : Prop :=
  int_or_null (capacity r) /\ int_or_null (available_spaces r) /\
  (exists props tpims raw_cap raw_avail,
      py_get feat "properties" (JDict []) = Ok props /\
      py_get props "tpims" (JDict []) = Ok tpims /\
      py_get tpims "capacity" JNull = Ok raw_cap /\
      coerced_from raw_cap (capacity r) /\
      py_get tpims "spaces_available" JNull = Ok raw_avail /\
      coerced_unless_negative raw_avail (available_spaces r)) /\
  (exists geo coords,
      py_get feat "geometry" (JDict []) = Ok geo /\
      py_get geo "coordinates" (JList [JNull; JNull]) = Ok coords /\
      coordinate coords 1 = Ok (latitude r) /\
      coordinate coords 0 = Ok (longitude r)).

(** C3, a feature and its row: whenever [spaces_available] of the nested
    status block parses to the integer [n], the row holds null for a
    negative [n] and [n] itself otherwise, zero included. *)
Definition sentinel_suppressed (feat : json) (r : row) : Prop :=
  forall props tpims v n,
    py_get feat "properties" (JDict []) = Ok props ->
    py_get props "tpims" (JDict []) = Ok tpims ->
    py_get tpims "spaces_available" JNull = Ok v ->
    py_int v = Ok n ->
    (n < 0 -> available_spaces r = JNull) /\
    (n = 0 -> available_spaces r = JInt 0) /\
    (0 <= n -> available_spaces r = JInt n).

(** C4, a static record and its row, given the dynamic records [ds] and
    the dictionary [lookup] built from them: [available_spaces] is the
    coercion of what the looked-up dynamic record holds under
    [reportedAvailable], and a negative integer stays. *)
Definition available_from_dynamic (ds : list json) (lookup : pydict)
           (s : json) (r : row) : Prop :=
  exists sid dyn v,
    py_get s "siteId" (JStr "") = Ok sid /\
    dict_get lookup sid (JDict []) = Ok dyn /\
    (dyn = JDict [] \/ In dyn ds) /\
    py_get dyn "reportedAvailable" JNull = Ok v /\
    coerced_from v (available_spaces r) /\
    (forall n, py_int v = Ok n -> n < 0 -> available_spaces r = JInt n).

(** C6, a static record and its row, given the dynamic records [ds]: when
    no dynamic record matches the identifier, the three fields read from
    the dynamic record are at their defaults. *)
Definition unmatched_defaults (ds : list json) (s : json) (r : row) : Prop :=
  forall sid,
    py_get s "siteId" (JStr "") = Ok sid -> no_match ds sid ->
    available_spaces r = JNull /\ is_open r = JStr "" /\ trust_data r = JStr "".

(** C8, a feature and its row: for a coordinates list [cs]. *)
Definition coordinates_mapped (feat : json) (r : row) : Prop :=
  forall geo cs,
    py_get feat "geometry" (JDict []) = Ok geo ->
    py_get geo "coordinates" (JList [JNull; JNull]) = Ok (JList cs) ->
    ((List.length cs < 2)%nat -> latitude r = JNull /\ longitude r = JNull) /\
    ((2 <= List.length cs)%nat ->
     nth_error cs 0 = Some (longitude r) /\ nth_error cs 1 = Some (latitude r)).

(** A dynamic record as the feeds publish it: a mapping with a scalar
    identifier whose counts are not infinite floats. *)
Definition plain_dynamic (d : json) : bool :=
  keyed_record d
  && match py_get d "capacity" JNull with
     | Ok cap => countable cap
     | Raise _ => false
     end
  && match py_get d "reportedAvailable" JNull with
     | Ok avail => countable avail
     | Raise _ => false
     end.

(** Exactly [n] decimal digits. *)
Fixpoint all_digits (n : nat) (s : string) : bool :=
  match n, s with
  | O, EmptyString => true
  | S n', String c rest => is_digit c && all_digits n' rest
  | _, _ => false
  end.

(** [f] holds of [lo], [lo + 1], ..., [lo + n - 1]. *)
Definition holds_on (f : Z -> bool) (lo n : Z) : bool :=
  forallb (fun i => f (lo + Z.of_nat i)) (seq 0 (Z.to_nat n)).

(** The eight addresses of [FEEDS], in the order line 140 to 144 visit
    them. *)
Definition feed_urls : list string :=
  flat_map (fun entry => map snd (snd entry)) FEEDS.

Definition was_fetched (w : world) (url : string) : Prop :=
  exists data, fetch_json w url = Fetched data.

(** A run in which only the Illinois feeds answer, with one site. *)
Definition illinois_only : world :=
  {| now := Datetime 2026 11 4 7 5 9;
     fetch_json := fun url =>
       if String.eqb url "https://truckparking.travelmidwest.com/TPIMS_Static.json"
       then Fetched (JList [JDict [("siteId", JStr "A1"); ("name", JStr "Rest Stop");
                                   ("capacity", JStr "50")]])
       else if String.eqb url "https://truckparking.travelmidwest.com/TPIMS_Dynamic.json"
       then Fetched (JList [JDict [("siteId", JStr "A1"); ("reportedAvailable", JStr "12");
                                   ("open", JBool true)]])
       else Failed "timed out";
     insert_rows_json := fun _ => [] |}.


(* ================================================================= *)
(** ** What the further properties speak of *)

(** *** Rows of [parse_standard] *)

(** Lines 70-74 and 79: the row carries the state it was called with, the
    identifier of the static record, and the descriptive values of the
    static record as they are, the empty text standing for a missing key. *)
Definition static_passthrough (st s : json) (r : row) : Prop :=
  state r = st /\
  py_get s "siteId" (JStr "") = Ok (site_id r) /\
  py_get s "name" (JStr "") = Ok (name r) /\
  py_get s "relevantHighway" (JStr "") = Ok (highway r) /\
  py_get s "directionOfTravel" (JStr "") = Ok (direction r).

(** Line 57: a static record that has the key [capacity] decides the
    capacity alone, whatever value it holds there; only without the key is
    the looked-up dynamic record read. *)
Definition capacity_precedence (lookup : pydict) (s : json) (r : row) : Prop :=
  forall fs,
    s = JDict fs ->
    match assoc "capacity" fs with
    | Some v => coerced_from v (capacity r)
    | None =>
        exists sid dyn v,
          py_get s "siteId" (JStr "") = Ok sid /\
          dict_get lookup sid (JDict []) = Ok dyn /\
          py_get dyn "capacity" JNull = Ok v /\
          coerced_from v (capacity r)
    end.

(** Line 82: the time stamp of the looked-up dynamic record when it has
    the key, else that of the static record, else the empty text. *)
Definition timestamp_precedence (lookup : pydict) (s : json) (r : row) : Prop :=
  exists sid dyn,
    py_get s "siteId" (JStr "") = Ok sid /\
    dict_get lookup sid (JDict []) = Ok dyn /\
    forall fs dfs,
      s = JDict fs -> dyn = JDict dfs ->
      source_timestamp r =
      match assoc "timeStamp" dfs with
      | Some v => v
      | None => match assoc "timeStamp" fs with Some v => v | None => JStr "" end
      end.

(** The fields of [r] that lines 63 and 79-81 read from a dynamic record
    are read from [d]. *)
Definition joined_with (d : json) (r : row) : Prop :=
  exists v_avail v_open v_trust,
    py_get d "reportedAvailable" JNull = Ok v_avail /\
    coerced_from v_avail (available_spaces r) /\
    py_get d "trend" (JStr "") = Ok (trend r) /\
    py_get d "open" (JStr "") = Ok v_open /\
    is_open r = JStr (py_str v_open) /\
    py_get d "trustData" (JStr "") = Ok v_trust /\
    trust_data r = JStr (py_str v_trust).

(** Lines 50-54 and 75-76 by the shape of [location]: a mapping is read, of
    a list only the first element is, and any other value leaves both
    coordinates null. *)
Definition location_read (s : json) (r : row) : Prop :=
  forall loc,
    py_get s "location" (JDict []) = Ok loc ->
    match loc with
    | JDict m | JList (JDict m :: _) =>
        latitude r = match assoc "latitude" m with Some v => v | None => JNull end /\
        longitude r = match assoc "longitude" m with Some v => v | None => JNull end
    | JList (_ :: _) => False
    | _ => latitude r = JNull /\ longitude r = JNull
    end.

(** *** Rows of [parse_indiana] *)

(** Lines 114, 123 and 125. *)
Definition indiana_constants (r : row) : Prop :=
  state r = JStr "Indiana" /\ trend r = JStr "" /\ trust_data r = JStr "".

(** Lines 102-108. *)
Definition spaces_not_negative (r : row) : Prop :=
  available_spaces r = JNull \/ exists n, 0 <= n /\ available_spaces r = JInt n.

(** Lines 96-100: the capacity is coerced and nothing more, a negative
    count stays. *)
Definition capacity_unfiltered (feat : json) (r : row) : Prop :=
  forall props tpims v,
    py_get feat "properties" (JDict []) = Ok props ->
    py_get props "tpims" (JDict []) = Ok tpims ->
    py_get tpims "capacity" JNull = Ok v ->
    coerced_from v (capacity r).

(** Lines 110-111, both ways. *)
Definition open_iff_status (feat : json) (r : row) : Prop :=
  forall props status,
    py_get feat "properties" (JDict []) = Ok props ->
    py_get props "site_area_status" (JStr "") = Ok status ->
    (is_open r = JStr "True" <-> status = JStr "open") /\
    (is_open r = JStr "False" <-> status = JStr "closed").

(** Line 118 for a label that is a text: the direction is the part of the
    label before its first dash, and empty when the label has no dash. *)
Definition direction_before_dash (feat : json) (r : row) : Prop :=
  forall props label,
    py_get feat "properties" (JDict []) = Ok props ->
    py_get props "site_area_label" (JStr "") = Ok (JStr label) ->
    exists d,
      direction r = JStr d /\ has_char "-" d = false /\
      (has_char "-" label = true -> exists rest, label = d ++ "-" ++ rest) /\
      (has_char "-" label = false -> d = "").

(** Lines 115-117: which key wins is decided by the presence of the key,
    not by the value under it. *)
Definition indiana_fallbacks (feat : json) (r : row) : Prop :=
  forall ffs pfs tfs,
    feat = JDict ffs ->
    py_get feat "properties" (JDict []) = Ok (JDict pfs) ->
    py_get (JDict pfs) "tpims" (JDict []) = Ok (JDict tfs) ->
    site_id r = match assoc "site_label" pfs with
                | Some v => v
                | None => match assoc "id" ffs with Some v => v | None => JStr "" end
                end /\
    name r = match assoc "site_area_description" pfs with
             | Some v => v
             | None => match assoc "site_area_location" pfs with
                       | Some v => v | None => JStr "" end
             end /\
    highway r = match assoc "route" tfs with
                | Some v => v
                | None => match assoc "site_route" pfs with
                          | Some v => v | None => JStr "" end
                end /\
    source_timestamp r = match assoc "last_data" tfs with
                         | Some v => v | None => JStr "" end.

(** A feature [parse_indiana] cannot read: it is no mapping, or one of
    [properties], [geometry] and [properties.tpims] is present and no
    mapping. *)
Definition broken_feature (feat : json) : bool :=
  match feat with
  | JDict ffs =>
      match assoc "properties" ffs with
      | Some (JDict pfs) =>
          match assoc "tpims" pfs with
          | Some (JDict _) | None => false
          | Some _ => true
          end
      | None => false
      | Some _ => true
      end
      || match assoc "geometry" ffs with
         | Some (JDict _) | None => false
         | Some _ => true
         end
  | _ => true
  end.

(** *** The run *)

(** What line 145 or 148 store for one address. *)
Definition payload (w : world) (url : string) : json :=
  match fetch_json w url with
  | Fetched data => data
  | Failed _ => JNull
  end.

Definition fetch_failed (w : world) (url : string) : bool :=
  match fetch_json w url with
  | Fetched _ => false
  | Failed _ => true
  end.

(** [raw] once lines 140-150 are through. *)
Definition raw_of (w : world) : list (string * list (string * json)) :=
  map (fun entry =>
         (fst entry, map (fun feed => (fst feed, payload w (snd feed))) (snd entry)))
      FEEDS.

(** [x if isinstance(x, list) else []] *)
Definition as_list (v : json) : json :=
  if is_list v then v else JList [].

(** The address of a feed in [FEEDS]. *)
Definition url_of (state feed : string) : string :=
  match assoc state FEEDS with
  | Some urls => match assoc feed urls with Some url => url | None => "" end
  | None => ""
  end.

(** The rows of one standard state in a run, lines 154-156. *)
Definition state_rows (w : world) (state : string) : result (list row) :=
  parse_standard (JStr state)
                 (as_list (payload w (url_of state "static")))
                 (as_list (payload w (url_of state "dynamic"))).

(** The rows of Indiana in a run, lines 158-159. *)
Definition indiana_rows (w : world) : result (list row) :=
  if truthy (payload w (url_of "Indiana" "static"))
  then parse_indiana (payload w (url_of "Indiana" "static"))
                     (payload w (url_of "Indiana" "dynamic"))
  else Ok [].

(** A run in which the feeds of Illinois and of Indiana answer, Indiana
    with one feature that has no geometry. *)
Definition indiana_without_geometry : world :=
  {| now := Datetime 2026 11 4 7 5 9;
     fetch_json := fun url =>
       if String.eqb url "https://truckparking.travelmidwest.com/TPIMS_Static.json"
       then Fetched (JList [JDict [("siteId", JStr "A1"); ("capacity", JInt 50)]])
       else if String.eqb url "https://content.trafficwise.org/json/rest_area.json"
       then Fetched (JDict [("features",
                             JList [JDict [("id", JInt 7); ("geometry", JNull)]])])
       else Failed "timed out";
     insert_rows_json := fun _ => [] |}.

(** A static record lines 49-55 and 75-76 can read: a mapping whose
    identifier is a scalar and whose location is not a list that starts
    with something else than a mapping. *)
Definition readable_static (s : json) : bool :=
  keyed_record s
  && match py_get s "location" (JDict []) with
     | Ok loc => location_shape loc
     | Raise _ => false
     end.

(** A run in which no feed answers. *)
Definition all_feeds_down : world :=
  {| now := Datetime 2026 11 4 7 5 9;
     fetch_json := fun url => Failed ("HTTP Error 503 at " ++ url);
     insert_rows_json := fun _ => [] |}.

(** The run [illinois_only] with an answer of the dynamic feed of Indiana
    added. *)
Definition indiana_dynamic_answers : world :=
  {| now := now illinois_only;
     fetch_json := fun url =>
       if String.eqb url "https://content.trafficwise.org/json/tpims.json"
       then Fetched (JList [JDict [("site", JStr "IN001"); ("available", JInt 8)]])
       else fetch_json illinois_only url;
     insert_rows_json := insert_rows_json illinois_only |}.

(* ================================================================= *)
(** ** Reasoning about calls that may raise *)

Lemma bind_ok {A B : Type} (c : result A) (k : A -> result B) (b : B) :
  bind c k = Ok b -> exists a, c = Ok a /\ k a = Ok b.
Proof.
  destruct c as [a | e]; simpl; intros H.
  - exists a. split; [reflexivity | exact H].
  - discriminate H.
Qed.

(** Splits a hypothesis [x <- c ;; k = Ok b] into [c = Ok x] and the rest. *)
Ltac bind_inv H :=
  let x := fresh "x" in
  let Hx := fresh "Hx" in
  apply bind_ok in H; destruct H as (x & Hx & H).

Lemma mapM_ok {A B : Type} (f : A -> result B) (xs : list A) (ys : list B) :
  mapM f xs = Ok ys -> Forall2 (fun x y => f x = Ok y) xs ys.
Proof.
  revert ys. induction xs as [| x xs IH]; simpl; intros ys H.
  - injection H as <-. constructor.
  - bind_inv H. bind_inv H. injection H as <-.
    constructor; [assumption | apply IH; assumption].
Qed.

Lemma mapM_all {A B : Type} (f : A -> result B) (xs : list A) :
  Forall (fun x => exists y, f x = Ok y) xs -> exists ys, mapM f xs = Ok ys.
Proof.
  induction 1 as [| x xs [y Hy] _ [ys Hys]]; simpl.
  - exists []. reflexivity.
  - exists (y :: ys). rewrite Hy; simpl. rewrite Hys; reflexivity.
Qed.

Lemma Forall2_impl {A B : Type} (P Q : A -> B -> Prop) (xs : list A) (ys : list B) :
  (forall x y, In x xs -> P x y -> Q x y) -> Forall2 P xs ys -> Forall2 Q xs ys.
Proof.
  intros HPQ H. induction H as [| x y xs ys Hxy _ IH]; constructor.
  - apply HPQ; [left; reflexivity | exact Hxy].
  - apply IH. intros x' y' Hin. apply HPQ. right; exact Hin.
Qed.

Lemma Forall2_in_right {A B : Type} (P : A -> B -> Prop) (xs : list A) (ys : list B) (y : B) :
  Forall2 P xs ys -> In y ys -> exists x, In x xs /\ P x y.
Proof.
  induction 1 as [| x y' xs ys Hxy _ IH]; simpl; intros Hin.
  - contradiction.
  - destruct Hin as [<- | Hin].
    + exists x. split; [left; reflexivity | exact Hxy].
    + destruct (IH Hin) as (x' & Hx' & HP). exists x'. split; [right |]; assumption.
Qed.

(** *** The coercions *)

Lemma int_or_none_spec (v r : json) :
  int_or_none v = Ok r ->
  match py_int v with
  | Ok n => r = JInt n
  | Raise e => r = JNull /\ (e = TypeError \/ e = ValueError)
  end.
Proof.
  unfold int_or_none. destruct (py_int v) as [n | e]; simpl.
  - intros H; injection H as <-; reflexivity.
  - destruct e; simpl; intros H; try discriminate H;
      injection H as <-; split; auto.
Qed.

Lemma spaces_or_none_spec (v r : json) :
  spaces_or_none v = Ok r ->
  match py_int v with
  | Ok n => r = if n <? 0 then JNull else JInt n
  | Raise e => r = JNull /\ (e = TypeError \/ e = ValueError)
  end.
Proof.
  unfold spaces_or_none. destruct (py_int v) as [n | e]; simpl.
  - intros H; injection H as <-; reflexivity.
  - destruct e; simpl; intros H; try discriminate H;
      injection H as <-; split; auto.
Qed.

Lemma int_or_none_shape (v r : json) : int_or_none v = Ok r -> int_or_null r.
Proof.
  intros H. apply int_or_none_spec in H. destruct (py_int v) as [n | e].
  - right. exists n. exact H.
  - left. apply H.
Qed.

Lemma spaces_or_none_shape (v r : json) : spaces_or_none v = Ok r -> int_or_null r.
Proof.
  intros H. apply spaces_or_none_spec in H. destruct (py_int v) as [n | e].
  - destruct (n <? 0); [left | right; exists n]; exact H.
  - left. apply H.
Qed.

(** *** The dictionary of dynamic records *)

Lemma set_entry_from_records (ds : list json) (d : pydict) (k v : json) :
  from_records ds d -> In v ds ->
  (exists d', In d' ds /\ py_get d' "siteId" (JStr "") = Ok k) ->
  from_records ds (set_entry d k v).
Proof.
  unfold from_records. intros Hd Hv Hk.
  induction d as [| [k' v'] rest IH]; simpl.
  - constructor; [simpl; split; assumption | constructor].
  - inversion Hd as [| ? ? Hhead Hrest]; subst.
    destruct (key_eq k' k).
    + constructor; [split; [exact Hv | apply Hhead] | exact Hrest].
    + constructor; [exact Hhead | apply IH; exact Hrest].
Qed.

Lemma build_lookup_from_records (ds : list json) :
  forall (todo : list json) (acc d : pydict),
    incl todo ds -> from_records ds acc ->
    build_lookup todo acc = Ok d -> from_records ds d.
Proof.
  induction todo as [| x todo IH]; simpl; intros acc d Hincl Hacc H.
  - injection H as <-. exact Hacc.
  - bind_inv H. bind_inv H.
    unfold dict_setitem in Hx0. destruct (hashable x0); [| discriminate Hx0].
    injection Hx0 as <-.
    assert (Hin : In x ds) by (apply Hincl; left; reflexivity).
    apply (IH _ _ (fun y Hy => Hincl y (or_intror Hy))) in H; [exact H |].
    apply set_entry_from_records; [assumption | assumption |].
    exists x. split; assumption.
Qed.

Lemma find_entry_in (ds : list json) (d : pydict) (sid v : json) :
  from_records ds d -> find_entry d sid = Some v -> In v ds.
Proof.
  unfold from_records. induction d as [| [k' v'] rest IH]; simpl; intros Hd H.
  - discriminate H.
  - inversion Hd as [| ? ? [Hv' _] Hrest]; subst. simpl in Hv'.
    destruct (key_eq k' sid).
    + injection H as <-. exact Hv'.
    + apply IH; assumption.
Qed.

Lemma find_entry_no_match (ds : list json) (d : pydict) (sid : json) :
  from_records ds d -> no_match ds sid -> find_entry d sid = None.
Proof.
  unfold from_records. intros Hd Hno.
  induction d as [| [k' v'] rest IH]; simpl.
  - reflexivity.
  - inversion Hd as [| ? ? [_ (d' & Hd' & Hk')] Hrest]; subst. simpl in Hk'.
    rewrite (Hno d' k' Hd' Hk'). apply IH. assumption.
Qed.

(** What [dyn_lookup.get(sid, {})] can return: the empty mapping or a
    record of the dynamic list. *)
Lemma lookup_result (ds : list json) (d : pydict) (sid dyn : json) :
  build_lookup ds [] = Ok d -> dict_get d sid (JDict []) = Ok dyn ->
  dyn = JDict [] \/ In dyn ds.
Proof.
  intros Hb Hg.
  apply (build_lookup_from_records ds) in Hb;
    [| apply incl_refl | constructor].
  unfold dict_get in Hg. destruct (hashable sid); [| discriminate Hg].
  injection Hg as <-.
  destruct (find_entry d sid) as [v |] eqn:Hf.
  - right. apply (find_entry_in ds d sid); assumption.
  - left. reflexivity.
Qed.

Lemma lookup_no_match (ds : list json) (d : pydict) (sid dyn : json) :
  build_lookup ds [] = Ok d -> no_match ds sid ->
  dict_get d sid (JDict []) = Ok dyn -> dyn = JDict [].
Proof.
  intros Hb Hno Hg.
  apply (build_lookup_from_records ds) in Hb;
    [| apply incl_refl | constructor].
  unfold dict_get in Hg. destruct (hashable sid); [| discriminate Hg].
  rewrite (find_entry_no_match ds d sid Hb Hno) in Hg.
  injection Hg as <-. reflexivity.
Qed.

(** *** The two loops *)

Lemma parse_standard_rows (st sl dl : json) (rows : list row) :
  parse_standard st sl dl = Ok rows ->
  exists ds lookup ss,
    records_of dl = Ok ds /\ build_lookup ds [] = Ok lookup /\
    records_of sl = Ok ss /\
    Forall2 (fun s r => standard_row st lookup s = Ok r) ss rows.
Proof.
  unfold parse_standard. intros H.
  bind_inv H. bind_inv H. bind_inv H. apply mapM_ok in H.
  exists x, x0, x1. auto.
Qed.

Lemma parse_indiana_rows (sd dd : json) (rows : list row) :
  parse_indiana sd dd = Ok rows ->
  exists feats,
    features_of sd = Ok feats /\
    Forall2 (fun feat r => indiana_row feat = Ok r) feats rows.
Proof.
  unfold parse_indiana. intros H.
  bind_inv H. apply mapM_ok in H. exists x. auto.
Qed.

(** Everything the loop body of [parse_standard] reads and writes. *)
Lemma standard_row_inv (st : json) (lookup : pydict) (s : json) (r : row) :
  standard_row st lookup s = Ok r ->
  exists sid loc0 loc dyn dyn_cap cap0 avail0 v_open v_trust,
    py_get s "siteId" (JStr "") = Ok sid /\
    py_get s "location" (JDict []) = Ok loc0 /\
    normalize_location loc0 = Ok loc /\
    dict_get lookup sid (JDict []) = Ok dyn /\
    py_get dyn "capacity" JNull = Ok dyn_cap /\
    py_get s "capacity" dyn_cap = Ok cap0 /\
    int_or_none cap0 = Ok (capacity r) /\
    py_get dyn "reportedAvailable" JNull = Ok avail0 /\
    int_or_none avail0 = Ok (available_spaces r) /\
    py_get loc "latitude" JNull = Ok (latitude r) /\
    py_get loc "longitude" JNull = Ok (longitude r) /\
    py_get dyn "open" (JStr "") = Ok v_open /\
    is_open r = JStr (py_str v_open) /\
    py_get dyn "trustData" (JStr "") = Ok v_trust /\
    trust_data r = JStr (py_str v_trust).
Proof.
  unfold standard_row. intros H.
  do 19 bind_inv H. injection H as <-. simpl.
  exists x, x0, x1, x2, x3, x4, x6, x14, x15.
  repeat split; assumption.
Qed.

(** Everything the loop body of [parse_indiana] reads and writes. *)
Lemma indiana_row_inv (feat : json) (r : row) :
  indiana_row feat = Ok r ->
  exists props geo coords tpims cap0 avail0 status,
    py_get feat "properties" (JDict []) = Ok props /\
    py_get feat "geometry" (JDict []) = Ok geo /\
    py_get geo "coordinates" (JList [JNull; JNull]) = Ok coords /\
    py_get props "tpims" (JDict []) = Ok tpims /\
    py_get tpims "capacity" JNull = Ok cap0 /\
    int_or_none cap0 = Ok (capacity r) /\
    py_get tpims "spaces_available" JNull = Ok avail0 /\
    spaces_or_none avail0 = Ok (available_spaces r) /\
    py_get props "site_area_status" (JStr "") = Ok status /\
    is_open r = open_of_status status /\
    coordinate coords 1 = Ok (latitude r) /\
    coordinate coords 0 = Ok (longitude r).
Proof.
  unfold indiana_row. intros H.
  do 19 bind_inv H. injection H as <-. simpl.
  exists x, x0, x1, x2, x3, x5, x7.
  repeat split; assumption.
Qed.

(* ================================================================= *)
(** ** The model on concrete documents *)

Example int_of_text :
  map int_of_str ["50"; " -7 "; "+12"; "1_000"; "0012"; ""; "12.5"; "1__0"; "- 1"; "0x10"]
  = [Some 50; Some (-7); Some 12; Some 1000; Some 12; None; None; None; None; None].
Proof. reflexivity. Qed.

Example int_digit_limit :
  int_of_str (zeros 4300) = Some 0
  /\ int_of_str (zeros 4301) = None
  /\ int_or_none (JStr ("1" ++ zeros 4299)) = Ok (JInt (10 ^ 4299))
  /\ int_or_none (JStr ("1" ++ zeros 4300)) = Ok JNull
  /\ spaces_or_none (JStr ("-" ++ zeros 4301)) = Ok JNull.
Proof. vm_compute. repeat split; reflexivity. Qed.

Example int_of_values :
  map py_int [JBool true; JInt (-3); JFloat 2.75%float; JFloat (-2.75)%float;
              JFloat infinity; JFloat nan; JNull; JList []]
  = [Ok 1; Ok (-3); Ok 2; Ok (-2); Raise OverflowError; Raise ValueError;
     Raise TypeError; Raise TypeError].
Proof. vm_compute. reflexivity. Qed.

Example str_of_values :
  map py_str [JBool true; JBool false; JNull; JInt (-12); JStr "open";
              JFloat 41.5%float; JFloat (-88)%float; JFloat 0x1.999999999999ap-4%float;
              JFloat 1e22%float; JFloat 0x1p-1074%float; JFloat infinity;
              JList [JInt 1; JStr "a"; JNull];
              JDict [("k", JList [JFloat 1.5%float; JBool true])]]
  = ["True"; "False"; "None"; "-12"; "open"; "41.5"; "-88.0"; "0.1"; "1e+22";
     "5e-324"; "inf"; "[1, 'a', None]"; "{'k': [1.5, True]}"].
Proof. vm_compute. reflexivity. Qed.

Example keys_by_value :
  map (fun kv => key_eq (fst kv) (snd kv))
      [(JInt 1, JFloat 1%float); (JBool true, JInt 1); (JStr "1", JInt 1);
       (JFloat nan, JFloat nan); (JFloat 0%float, JFloat (-0)%float);
       (JInt 9007199254740993, JFloat 9007199254740992%float); (JNull, JStr "")]
  = [true; true; false; true; true; false; false].
Proof. vm_compute. reflexivity. Qed.

(** Section 8 of the specification, end to end. *)
Example standard_end_to_end :
  parse_standard (JStr "Illinois")
    (JList [JDict [("siteId", JStr "A1"); ("name", JStr "Rest Stop");
                   ("capacity", JStr "50")]])
    (JList [JDict [("siteId", JStr "A1"); ("reportedAvailable", JStr "12");
                   ("open", JBool true)]])
  = Ok [Row (JStr "Illinois") (JStr "A1") (JStr "Rest Stop") (JStr "") (JStr "")
            JNull JNull (JInt 50) (JInt 12) (JStr "") (JStr "True") (JStr "") (JStr "")].
Proof. reflexivity. Qed.

Example location_list_or_mapping :
  parse_standard (JStr "Kentucky")
    (JList [JDict [("location", JList [JDict [("latitude", JFloat 41.5%float);
                                              ("longitude", JFloat (-88)%float)]])]])
    JNull
  = parse_standard (JStr "Kentucky")
      (JList [JDict [("location", JDict [("latitude", JFloat 41.5%float);
                                         ("longitude", JFloat (-88)%float)])]])
      JNull.
Proof. reflexivity. Qed.

Example direction_of_label :
  direction_of (JDict [("site_area_label", JStr "NB-I90")]) = Ok (JStr "NB")
  /\ direction_of (JDict [("site_area_label", JStr "I90")]) = Ok (JStr "")
  /\ direction_of (JDict []) = Ok (JStr "")
  /\ direction_of (JDict [("site_area_label", JNull)]) = Raise TypeError.
Proof. repeat split; reflexivity. Qed.

Example status_to_is_open :
  map open_of_status [JStr "open"; JStr "closed"; JStr "unknown"; JStr ""; JNull]
  = [JStr "True"; JStr "False"; JStr ""; JStr ""; JStr ""].
Proof. reflexivity. Qed.

Example indiana_feature :
  parse_indiana
    (JDict [("features",
             JList [JDict [("id", JInt 7);
                           ("properties",
                            JDict [("site_area_label", JStr "NB-I90");
                                   ("site_area_status", JStr "open");
                                   ("tpims", JDict [("spaces_available", JInt (-1));
                                                    ("capacity", JStr "40")])]);
                           ("geometry",
                            JDict [("coordinates",
                                    JList [JFloat (-86.5)%float; JFloat 39.75%float])])]])])
    JNull
  = Ok [Row (JStr "Indiana") (JInt 7) (JStr "") (JStr "") (JStr "NB")
            (JFloat 39.75%float) (JFloat (-86.5)%float) (JInt 40) JNull
            (JStr "") (JStr "True") (JStr "") (JStr "")].
Proof. reflexivity. Qed.

(** An infinite count is the one coercion failure that is not caught. *)
Example infinite_capacity :
  parse_standard (JStr "Illinois")
    (JList [JDict [("siteId", JStr "A1"); ("capacity", JFloat infinity)]]) (JList [])
  = Raise OverflowError.
Proof. reflexivity. Qed.

Example every_fetch_fails :
  main (World (Datetime 2026 11 4 7 5 9) (fun _ => Failed "timed out") (fun _ => []))
  = Run (SysExit 1) [] None
        ["Illinois dynamic: timed out"; "Illinois static: timed out";
         "Indiana dynamic: timed out"; "Indiana static: timed out";
         "Kentucky dynamic: timed out"; "Kentucky static: timed out";
         "Minnesota dynamic: timed out"; "Minnesota static: timed out"].
Proof. reflexivity. Qed.

Example one_state_answers :
  ended (main illinois_only) = Returned
  /\ option_map (map poll_utc) (sent (main illinois_only))
     = Some [JStr "2026-11-04T07:05:09Z"]
  /\ List.length (feed_errors (main illinois_only)) = 6%nat.
Proof. repeat split; reflexivity. Qed.

Lemma int_or_none_coerced (v r : json) : int_or_none v = Ok r -> coerced_from v r.
Proof.
  intros H. apply int_or_none_spec in H. unfold coerced_from.
  destruct (py_int v); exact H.
Qed.

Lemma open_of_status_tri_state (status : json) : tri_state (open_of_status status).
Proof.
  unfold tri_state, open_of_status.
  destruct (eq_str status "open"); [auto |].
  destruct (eq_str status "closed"); auto.
Qed.

Lemma boolean_open_tri_state (d v : json) :
  boolean_or_absent "open" d = true -> py_get d "open" (JStr "") = Ok v ->
  tri_state (JStr (py_str v)).
Proof.
  unfold boolean_or_absent, py_get, tri_state.
  destruct d as [| | | | | | fs]; try discriminate.
  destruct (assoc "open" fs) as [[| [|] | | | | |] |];
    intros Hb Hv; try discriminate Hb; injection Hv as <-; simpl; auto.
Qed.

(* ================================================================= *)
(** ** C1: the values of is_open *)

(** C1, as stated, does not hold: [parse_standard] prints the raw [open]
    value of the dynamic record with [str], so a record whose [open] is
    [null] yields the row value ["None"], none of the three strings. *)
Lemma C1_counterexample :
  exists r,
    parse_standard (JStr "Illinois")
      (JList [JDict [("siteId", JStr "A1")]])
      (JList [JDict [("siteId", JStr "A1"); ("open", JNull)]]) = Ok [r]
    /\ is_open r = JStr "None"
    /\ ~ tri_state (is_open r).
Proof.
  eexists. split; [reflexivity |]. split; [reflexivity |].
  simpl. intros [H | [H | H]]; discriminate H.
Qed.

(** C1, amended: every row of [parse_indiana] has [is_open] among ["True"],
    ["False"] and [""]; the [is_open] of a row of [parse_standard] is [str]
    of the value that the dynamic record the dictionary returns for the
    site (the empty mapping when it returns none) holds under [open], [""]
    when it has no such key, and so it is among the three strings as soon
    as every dynamic record holds a JSON boolean under [open] or nothing. *)
Theorem C1_is_open_values :
  (forall sd dd rows r,
      parse_indiana sd dd = Ok rows -> In r rows -> tri_state (is_open r))
  /\ (forall st sl dl rows,
         parse_standard st sl dl = Ok rows ->
         exists ds lookup ss,
           records_of dl = Ok ds /\ build_lookup ds [] = Ok lookup /\
           records_of sl = Ok ss /\
           Forall2 (open_printed ds lookup) ss rows)
  /\ (forall st sl dl ds rows r,
         records_of dl = Ok ds ->
         Forall (fun d => boolean_or_absent "open" d = true) ds ->
         parse_standard st sl dl = Ok rows -> In r rows ->
         tri_state (is_open r)).
Proof.
  assert (Hstd : forall st sl dl rows,
             parse_standard st sl dl = Ok rows ->
             exists ds lookup ss,
               records_of dl = Ok ds /\ build_lookup ds [] = Ok lookup /\
               records_of sl = Ok ss /\
               Forall2 (open_printed ds lookup) ss rows).
  { intros st sl dl rows Hp.
    destruct (parse_standard_rows _ _ _ _ Hp) as (ds & lookup & ss & Hds & Hb & Hss & Hrows).
    exists ds, lookup, ss. repeat (split; [assumption |]).
    refine (Forall2_impl _ _ _ _ _ Hrows). intros s r _ Hrow.
    destruct (standard_row_inv _ _ _ _ Hrow)
      as (sid & loc0 & loc & dyn & dc & c0 & a0 & vo & vt & H).
    exists sid, dyn, vo. intuition eauto using lookup_result. }
  split; [| split; [exact Hstd |]].
  - intros sd dd rows r Hp Hin.
    destruct (parse_indiana_rows _ _ _ Hp) as (feats & _ & Hrows).
    destruct (Forall2_in_right _ _ _ _ Hrows Hin) as (feat & _ & Hrow).
    destruct (indiana_row_inv _ _ Hrow)
      as (props & geo & coords & tpims & c0 & a0 & status & H).
    decompose [and] H. replace (is_open r) with (open_of_status status) by auto.
    apply open_of_status_tri_state.
  - intros st sl dl ds rows r Hds Hall Hp Hin.
    destruct (Hstd _ _ _ _ Hp) as (ds' & lookup & ss & Hds' & _ & _ & Hrows).
    rewrite Hds in Hds'. injection Hds' as <-.
    destruct (Forall2_in_right _ _ _ _ Hrows Hin)
      as (s & _ & sid & dyn & v & _ & _ & Hdyn & Hv & Ho).
    rewrite Ho.
    destruct Hdyn as [-> | Hdyn].
    + injection Hv as <-. right; right; reflexivity.
    + apply (boolean_open_tri_state dyn); [| exact Hv].
      rewrite Forall_forall in Hall. apply Hall. exact Hdyn.
Qed.

Lemma C1_is_open_values_witness :
  tri_state (JStr "False")
  /\ tri_state (JStr "True").
Proof.
  split.
  - apply (proj1 C1_is_open_values
             (JDict [("features",
                      JList [JDict [("properties",
                                     JDict [("site_area_status", JStr "closed")])]])])
             JNull
             [Row (JStr "Indiana") (JStr "") (JStr "") (JStr "") (JStr "")
                  JNull JNull JNull JNull (JStr "") (JStr "False") (JStr "") (JStr "")]
             (Row (JStr "Indiana") (JStr "") (JStr "") (JStr "") (JStr "")
                  JNull JNull JNull JNull (JStr "") (JStr "False") (JStr "") (JStr ""))).
    + reflexivity.
    + left; reflexivity.
  - apply (proj2 (proj2 C1_is_open_values)
             (JStr "Illinois")
             (JList [JDict [("siteId", JStr "A1")]])
             (JList [JDict [("siteId", JStr "A1"); ("open", JBool true)]])
             [JDict [("siteId", JStr "A1"); ("open", JBool true)]]
             [Row (JStr "Illinois") (JStr "A1") (JStr "") (JStr "") (JStr "")
                  JNull JNull JNull JNull (JStr "") (JStr "True") (JStr "") (JStr "")]
             (Row (JStr "Illinois") (JStr "A1") (JStr "") (JStr "") (JStr "")
                  JNull JNull JNull JNull (JStr "") (JStr "True") (JStr "") (JStr ""))).
    + reflexivity.
    + repeat constructor.
    + reflexivity.
    + left; reflexivity.
Defined.

(* ================================================================= *)
(** ** C2: the numeric fields *)

(** C2, as stated, does not hold: [parse_standard] copies [latitude] and
    [longitude] from the location mapping as they are, so a location that
    holds text there yields a row whose coordinates are that text. *)
Lemma C2_counterexample :
  exists r,
    parse_standard (JStr "Illinois")
      (JList [JDict [("siteId", JStr "A1");
                     ("location", JDict [("latitude", JStr "n/a");
                                         ("longitude", JStr "n/a")])]])
      (JList []) = Ok [r]
    /\ latitude r = JStr "n/a" /\ number_or_null (latitude r) = false
    /\ longitude r = JStr "n/a" /\ number_or_null (longitude r) = false.
Proof.
  eexists. repeat split; reflexivity.
Qed.

(** C2, amended: in every row of either normalizer [capacity] and
    [available_spaces] are an integer or null, each being [int] of the
    value the source holds for it and null when [int] raises [TypeError] or
    [ValueError], never a zero standing for a failure (in a row of
    [parse_indiana] a negative number of spaces is null as well);
    [latitude] and [longitude] are not coerced: a row of [parse_standard]
    carries what the normalized location holds under these keys (null for
    a missing key), a row of [parse_indiana] what lines 119 and 120 read
    from the coordinates. *)
Theorem C2_numeric_fields :
  (forall st sl dl rows,
      parse_standard st sl dl = Ok rows ->
      exists ds lookup ss,
        records_of dl = Ok ds /\ build_lookup ds [] = Ok lookup /\
        records_of sl = Ok ss /\
        Forall2 (standard_numeric lookup) ss rows)
  /\ (forall sd dd rows,
         parse_indiana sd dd = Ok rows ->
         exists feats, features_of sd = Ok feats /\ Forall2 indiana_numeric feats rows).
Proof.
  split.
  - intros st sl dl rows Hp.
    destruct (parse_standard_rows _ _ _ _ Hp) as (ds & lookup & ss & Hds & Hb & Hss & Hrows).
    exists ds, lookup, ss. repeat (split; [assumption |]).
    refine (Forall2_impl _ _ _ _ _ Hrows). intros s r _ Hrow.
    destruct (standard_row_inv _ _ _ _ Hrow)
      as (sid & loc0 & loc & dyn & dc & c0 & a0 & vo & vt & H).
    decompose [and] H. unfold standard_numeric.
    split; [eapply int_or_none_shape; eassumption |].
    split; [eapply int_or_none_shape; eassumption |].
    split; [exists sid, dyn, dc, c0, a0; auto 10 using int_or_none_coerced |].
    exists loc0, loc. auto.
  - intros sd dd rows Hp.
    destruct (parse_indiana_rows _ _ _ Hp) as (feats & Hf & Hrows).
    exists feats. split; [exact Hf |].
    refine (Forall2_impl _ _ _ _ _ Hrows). intros feat r _ Hrow.
    destruct (indiana_row_inv _ _ Hrow)
      as (props & geo & coords & tpims & c0 & a0 & status & H).
    decompose [and] H. unfold indiana_numeric.
    split; [eapply int_or_none_shape; eassumption |].
    split; [eapply spaces_or_none_shape; eassumption |].
    split.
    { exists props, tpims, c0, a0.
      repeat (split; [auto using int_or_none_coerced |]).
      unfold coerced_unless_negative.
      match goal with
      | Hs : spaces_or_none a0 = Ok _ |- _ => apply spaces_or_none_spec in Hs; exact Hs
      end. }
    exists geo, coords. auto.
Qed.

Lemma C2_numeric_fields_witness :
  exists ds lookup ss,
    records_of (JList [JDict [("siteId", JStr "A1"); ("capacity", JInt 40);
                              ("reportedAvailable", JStr "7")]])
    = Ok ds
    /\ build_lookup ds [] = Ok lookup
    /\ records_of (JList [JDict [("siteId", JStr "A1"); ("capacity", JStr "many");
                                 ("location", JList [JDict [("latitude", JFloat 41.5%float);
                                                            ("longitude", JFloat (-88)%float)]])]])
       = Ok ss
    /\ Forall2 (standard_numeric lookup) ss
         [Row (JStr "Illinois") (JStr "A1") (JStr "") (JStr "") (JStr "")
              (JFloat 41.5%float) (JFloat (-88)%float) JNull (JInt 7)
              (JStr "") (JStr "") (JStr "") (JStr "")].
Proof.
  apply (proj1 C2_numeric_fields (JStr "Illinois")).
  reflexivity.
Defined.

(* ================================================================= *)
(** ** C3: the negative sentinel of the GeoJSON feed *)

(** C3: for every feature [parse_indiana] processes, a [spaces_available]
    that parses to a negative integer gives [available_spaces] null, one
    that parses to 0 gives 0, and any other count is kept. *)
Theorem C3_negative_is_unknown (sd dd : json) (rows : list row) :
  parse_indiana sd dd = Ok rows ->
  exists feats, features_of sd = Ok feats /\ Forall2 sentinel_suppressed feats rows.
Proof.
  intros Hp.
  destruct (parse_indiana_rows _ _ _ Hp) as (feats & Hf & Hrows).
  exists feats. split; [exact Hf |].
  refine (Forall2_impl _ _ _ _ _ Hrows). intros feat r _ Hrow.
  destruct (indiana_row_inv _ _ Hrow)
    as (props & geo & coords & tpims & c0 & a0 & status & H).
  decompose [and] H.
  intros props' tpims' v n Hprops Htpims Hv Hn.
  assert (props' = props) by congruence; subst props'.
  assert (tpims' = tpims) by congruence; subst tpims'.
  assert (v = a0) by congruence; subst v.
  match goal with Hs : spaces_or_none a0 = Ok _ |- _ =>
    apply spaces_or_none_spec in Hs; rewrite Hn in Hs; rewrite Hs end.
  repeat split; intros Hcmp.
  - apply Z.ltb_lt in Hcmp. rewrite Hcmp. reflexivity.
  - subst n. reflexivity.
  - apply Z.ltb_ge in Hcmp. rewrite Hcmp. reflexivity.
Qed.

Lemma C3_negative_is_unknown_witness :
  exists feats,
    features_of
      (JDict [("features",
               JList [JDict [("properties",
                              JDict [("tpims", JDict [("spaces_available", JInt (-1))])])];
                      JDict [("properties",
                              JDict [("tpims", JDict [("spaces_available", JStr "0")])])]])])
    = Ok feats
    /\ Forall2 sentinel_suppressed feats
         [Row (JStr "Indiana") (JStr "") (JStr "") (JStr "") (JStr "")
              JNull JNull JNull JNull (JStr "") (JStr "") (JStr "") (JStr "");
          Row (JStr "Indiana") (JStr "") (JStr "") (JStr "") (JStr "")
              JNull JNull JNull (JInt 0) (JStr "") (JStr "") (JStr "") (JStr "")].
Proof.
  apply (C3_negative_is_unknown _ JNull).
  reflexivity.
Defined.

(* ================================================================= *)
(** ** C4: available spaces of the standard feeds *)

(** In [parse_standard], whenever it returns rows, [available_spaces] is
    read from the dynamic record the dictionary returns for the site (never
    from the static record), coerced with [int], null when [int] raises
    [TypeError] or [ValueError], and a negative integer is kept as it is. *)
Theorem standard_available_from_dynamic (st sl dl : json) (rows : list row) :
  parse_standard st sl dl = Ok rows ->
  exists ds lookup ss,
    records_of dl = Ok ds /\ build_lookup ds [] = Ok lookup /\
    records_of sl = Ok ss /\
    Forall2 (available_from_dynamic ds lookup) ss rows.
Proof.
  intros Hp.
  destruct (parse_standard_rows _ _ _ _ Hp) as (ds & lookup & ss & Hds & Hb & Hss & Hrows).
  exists ds, lookup, ss. repeat (split; [assumption |]).
  refine (Forall2_impl _ _ _ _ _ Hrows). intros s r _ Hrow.
  destruct (standard_row_inv _ _ _ _ Hrow)
    as (sid & loc0 & loc & dyn & dc & c0 & a0 & vo & vt & H).
  decompose [and] H.
  exists sid, dyn, a0.
  assert (Hco : coerced_from a0 (available_spaces r))
    by (apply int_or_none_coerced; assumption).
  repeat (split; [eauto using lookup_result |]).
  intros n Hn _. unfold coerced_from in Hco. rewrite Hn in Hco. exact Hco.
Qed.

Lemma standard_available_from_dynamic_witness :
  exists ds lookup ss,
    records_of (JList [JDict [("siteId", JStr "A1"); ("reportedAvailable", JInt (-3))]])
    = Ok ds
    /\ build_lookup ds [] = Ok lookup
    /\ records_of (JList [JDict [("siteId", JStr "A1"); ("reportedAvailable", JInt 9)]])
       = Ok ss
    /\ Forall2 (available_from_dynamic ds lookup) ss
         [Row (JStr "Kentucky") (JStr "A1") (JStr "") (JStr "") (JStr "")
              JNull JNull JNull (JInt (-3)) (JStr "") (JStr "") (JStr "") (JStr "")].
Proof.
  apply (standard_available_from_dynamic (JStr "Kentucky")).
  reflexivity.
Defined.

(** C4 at a dynamic record whose [reportedAvailable] is an infinite float,
    which is what [json.loads] makes of [1e999]: the coercion fails, yet
    [available_spaces] does not become null; [int] raises [OverflowError],
    which the [except] clause of line 66 does not list, and
    [parse_standard] ends with it, no row being returned. *)
Theorem C4_infinite_available :
  py_int (JFloat infinity) = Raise OverflowError
  /\ int_or_none (JFloat infinity) = Raise OverflowError
  /\ parse_standard (JStr "Illinois")
       (JList [JDict [("siteId", JStr "A1")]])
       (JList [JDict [("siteId", JStr "A1"); ("reportedAvailable", JFloat infinity)]])
     = Raise OverflowError.
Proof.
  repeat split; reflexivity.
Qed.

(* ================================================================= *)
(** ** C6: static records without a dynamic record *)

Lemma records_of_list (items : list json) : records_of (JList items) = Ok items.
Proof. destruct items; reflexivity. Qed.

Lemma build_lookup_keyed (ds : list json) :
  Forall (fun d => keyed_record d = true) ds ->
  forall acc, exists lookup, build_lookup ds acc = Ok lookup.
Proof.
  induction 1 as [| d ds Hd _ IH]; intros acc; simpl.
  - exists acc. reflexivity.
  - unfold keyed_record in Hd.
    destruct (py_get d "siteId" (JStr "")) as [k | e]; [| discriminate Hd].
    simpl. unfold dict_setitem. rewrite Hd. simpl. apply IH.
Qed.

(** The exceptions [int] can raise. *)
Lemma py_int_raises (v : json) (e : exn) :
  py_int v = Raise e -> e = TypeError \/ e = ValueError \/ e = OverflowError.
Proof.
  destruct v as [| b | n | f | s | items | fs]; simpl; intros H;
    try discriminate H; try (injection H as <-; auto).
  - unfold float_trunc in H.
    destruct (Prim2SF f); try discriminate H; injection H as <-; auto.
  - destruct (int_of_str s); [discriminate H | injection H as <-; auto].
Qed.

Lemma int_or_none_countable (v : json) :
  countable v = true -> exists r, int_or_none v = Ok r.
Proof.
  unfold countable, int_or_none.
  destruct (py_int v) as [n | e] eqn:Hv; simpl; intros H.
  - eexists; reflexivity.
  - destruct (py_int_raises _ _ Hv) as [-> | [-> | ->]];
      try discriminate H; eexists; reflexivity.
Qed.

Lemma normalize_location_shape (loc : json) :
  location_shape loc = true ->
  exists fields, normalize_location loc = Ok (JDict fields).
Proof.
  unfold normalize_location.
  destruct loc as [| | | | | [| first rest] | fs]; simpl; intros H;
    try (exists []; reflexivity).
  - destruct first; try discriminate H. eexists; reflexivity.
  - exists fs; reflexivity.
Qed.

Lemma plain_dynamic_dict (d : json) :
  plain_dynamic d = true -> exists fields, d = JDict fields.
Proof.
  unfold plain_dynamic, keyed_record.
  destruct d; simpl; try discriminate. intros _. eexists; reflexivity.
Qed.

(** The loop body returns a row for a plain static record whatever the
    dictionary of plain dynamic records returns for it. *)
Lemma standard_row_plain (st : json) (ds : list json) (lookup : pydict) (s : json) :
  Forall (fun d => plain_dynamic d = true) ds ->
  build_lookup ds [] = Ok lookup ->
  plain_static s = true ->
  exists r, standard_row st lookup s = Ok r.
Proof.
  intros Hds Hb Hs.
  unfold plain_static, keyed_record in Hs.
  destruct s as [| | | | | | fs]; try discriminate Hs.
  apply andb_prop in Hs. destruct Hs as [Hs Hcap].
  apply andb_prop in Hs. destruct Hs as [Hsid Hloc].
  unfold standard_row. simpl py_get. simpl in Hsid, Hloc, Hcap.
  cbn [bind].
  destruct (normalize_location_shape _ Hloc) as (lfs & ->). cbn [bind].
  destruct (dict_get lookup _ (JDict [])) as [dyn | e] eqn:Hdyn.
  2:{ unfold dict_get in Hdyn. rewrite Hsid in Hdyn. discriminate Hdyn. }
  cbn [bind].
  assert (Hdyn' : dyn = JDict [] \/ plain_dynamic dyn = true).
  { destruct (lookup_result _ _ _ _ Hb Hdyn) as [-> | Hin]; [left; reflexivity |].
    right. rewrite Forall_forall in Hds. apply Hds. exact Hin. }
  assert (Hd : exists dfs, dyn = JDict dfs).
  { destruct Hdyn' as [-> | Hp]; [eexists; reflexivity | apply plain_dynamic_dict; exact Hp]. }
  destruct Hd as (dfs & ->). simpl py_get. cbn [bind].
  assert (Hc1 : countable (match assoc "capacity" fs with
                           | Some x => x
                           | None => match assoc "capacity" dfs with
                                     | Some x => x | None => JNull end
                           end) = true).
  { destruct (assoc "capacity" fs); [exact Hcap |].
    destruct Hdyn' as [Hd | Hp]; [injection Hd as ->; reflexivity |].
    unfold plain_dynamic in Hp; simpl in Hp.
    apply andb_prop in Hp. destruct Hp as [Hp _].
    apply andb_prop in Hp. apply Hp. }
  destruct (int_or_none_countable _ Hc1) as (cap & ->). cbn [bind].
  assert (Hc2 : countable (match assoc "reportedAvailable" dfs with
                           | Some x => x | None => JNull end) = true).
  { destruct Hdyn' as [Hd | Hp]; [injection Hd as ->; reflexivity |].
    unfold plain_dynamic in Hp; simpl in Hp.
    apply andb_prop in Hp. apply Hp. }
  destruct (int_or_none_countable _ Hc2) as (avail & ->). cbn [bind].
  eexists; reflexivity.
Qed.

(** Plain feeds give a row for every static record. *)
Lemma parse_standard_plain (st : json) (ss ds : list json) :
  Forall (fun d => plain_dynamic d = true) ds ->
  Forall (fun s => plain_static s = true) ss ->
  exists rows, parse_standard st (JList ss) (JList ds) = Ok rows.
Proof.
  intros Hds Hss. unfold parse_standard. rewrite !records_of_list. cbn [bind].
  destruct (build_lookup_keyed ds) with (acc := @nil (json * json)) as (lookup & Hb).
  { revert Hds. apply Forall_impl. intros d Hd.
    unfold plain_dynamic in Hd.
    apply andb_prop in Hd. destruct Hd as [Hd _].
    apply andb_prop in Hd. apply Hd. }
  rewrite Hb. cbn [bind].
  apply mapM_all. revert Hss. apply Forall_impl. intros s Hs.
  apply (standard_row_plain st ds); assumption.
Qed.

Lemma unmatched_row (st : json) (ds : list json) (lookup : pydict) (s : json) (r : row) :
  build_lookup ds [] = Ok lookup ->
  standard_row st lookup s = Ok r ->
  unmatched_defaults ds s r.
Proof.
  intros Hb Hrow sid Hsid Hno.
  destruct (standard_row_inv _ _ _ _ Hrow)
    as (sid' & loc0 & loc & dyn & dc & c0 & a0 & vo & vt & H).
  decompose [and] H.
  assert (sid' = sid) by congruence; subst sid'.
  assert (dyn = JDict []) by (eapply lookup_no_match; eassumption); subst dyn.
  repeat match goal with
         | Hg : py_get (JDict []) _ _ = Ok _ |- _ => injection Hg as <-
         end.
  match goal with
  | Hi : int_or_none JNull = Ok _ |- _ => injection Hi as Hi; rewrite <- Hi
  end.
  repeat split; assumption.
Qed.

(** C6, as stated, does not hold: a static record that matches no
    dynamic record gets no row when something else in the feeds stops
    [parse_standard]; here a dynamic list that holds a null beside its
    records, which line 46 cannot read. *)
Lemma C6_counterexample :
  no_match [JDict [("siteId", JStr "B2")]; JNull] (JStr "A1")
  /\ parse_standard (JStr "Illinois")
       (JList [JDict [("siteId", JStr "A1"); ("capacity", JInt 20)]])
       (JList [JDict [("siteId", JStr "B2")]; JNull])
     = Raise AttributeError.
Proof.
  split; [| reflexivity].
  intros d k [<- | [<- | []]] Hk; [| discriminate Hk].
  injection Hk as <-. reflexivity.
Qed.

(** C6, amended: whenever [parse_standard] returns rows, every static
    record has exactly one row, and the row of a record whose identifier no
    dynamic record matches has [available_spaces] null and [is_open] and
    [trust_data] empty; the rows are returned when every dynamic record is
    a mapping with a scalar identifier and finite counts and every static
    record a mapping with a scalar identifier, a finite capacity and a
    location that is no list starting with something else than a
    mapping. *)
Theorem C6_unmatched_static :
  (forall st sl dl rows,
      parse_standard st sl dl = Ok rows ->
      exists ds ss,
        records_of dl = Ok ds /\ records_of sl = Ok ss /\
        Forall2 (unmatched_defaults ds) ss rows)
  /\ (forall st ss ds,
         Forall (fun d => plain_dynamic d = true) ds ->
         Forall (fun s => plain_static s = true) ss ->
         exists rows,
           parse_standard st (JList ss) (JList ds) = Ok rows /\
           Forall2 (unmatched_defaults ds) ss rows).
Proof.
  assert (Hfields : forall st sl dl rows,
             parse_standard st sl dl = Ok rows ->
             exists ds ss,
               records_of dl = Ok ds /\ records_of sl = Ok ss /\
               Forall2 (unmatched_defaults ds) ss rows).
  { intros st sl dl rows Hp.
    destruct (parse_standard_rows _ _ _ _ Hp) as (ds & lookup & ss & Hds & Hb & Hss & Hrows).
    exists ds, ss. repeat (split; [assumption |]).
    refine (Forall2_impl _ _ _ _ _ Hrows). intros s r _ Hrow.
    eapply unmatched_row; eassumption. }
  split; [exact Hfields |].
  intros st ss ds Hds Hss.
  destruct (parse_standard_plain st ss ds Hds Hss) as (rows & Hp).
  exists rows. split; [exact Hp |].
  destruct (Hfields _ _ _ _ Hp) as (ds' & ss' & Hds' & Hss' & HF).
  rewrite records_of_list in Hds', Hss'.
  injection Hds' as <-. injection Hss' as <-. exact HF.
Qed.

Lemma C6_unmatched_static_witness :
  exists rows,
    parse_standard (JStr "Minnesota")
      (JList [JDict [("siteId", JStr "A1"); ("capacity", JInt 20)];
              JDict [("siteId", JStr "B2"); ("capacity", JInt 35)]])
      (JList [JDict [("siteId", JStr "A1"); ("reportedAvailable", JInt 4);
                     ("open", JBool true); ("trustData", JBool true)]])
    = Ok rows
    /\ Forall2
         (unmatched_defaults
            [JDict [("siteId", JStr "A1"); ("reportedAvailable", JInt 4);
                    ("open", JBool true); ("trustData", JBool true)]])
         [JDict [("siteId", JStr "A1"); ("capacity", JInt 20)];
          JDict [("siteId", JStr "B2"); ("capacity", JInt 35)]]
         rows.
Proof.
  apply (proj2 C6_unmatched_static (JStr "Minnesota")).
  - repeat constructor.
  - repeat constructor.
Defined.

(* ================================================================= *)
(** ** C7: the shapes of location *)

(** What lines 50-54 do with each shape: a mapping stays, a non-empty list
    gives its first element, whatever it is, and every other value gives
    the empty mapping. *)
Lemma normalize_location_cases (loc : json) :
  match loc with
  | JDict _ => normalize_location loc = Ok loc
  | JList (first :: _) => normalize_location loc = Ok first
  | _ => normalize_location loc = Ok (JDict [])
  end.
Proof.
  destruct loc as [| | | | | [| first rest] |]; reflexivity.
Qed.

(** C7 at a location that is a list whose first element is not a mapping:
    the element is kept instead of the empty mapping, and reading
    [latitude] from it raises [AttributeError], which ends
    [parse_standard]. *)
Theorem C7_location_not_a_mapping :
  normalize_location (JList [JInt 5]) = Ok (JInt 5)
  /\ py_get (JInt 5) "latitude" JNull = Raise AttributeError
  /\ parse_standard (JStr "Illinois")
       (JList [JDict [("siteId", JStr "A1"); ("location", JList [JInt 5])]])
       (JList [])
     = Raise AttributeError.
Proof.
  repeat split; reflexivity.
Qed.

(* ================================================================= *)
(** ** C8: coordinates of a feature *)

(** C8: for every feature whose geometry holds a coordinates list, fewer
    than two elements give a row with [latitude] and [longitude] null;
    otherwise [longitude] is the element at index 0 and [latitude] the
    element at index 1. *)
Theorem C8_coordinates (sd dd : json) (rows : list row) :
  parse_indiana sd dd = Ok rows ->
  exists feats, features_of sd = Ok feats /\ Forall2 coordinates_mapped feats rows.
Proof.
  intros Hp.
  destruct (parse_indiana_rows _ _ _ Hp) as (feats & Hf & Hrows).
  exists feats. split; [exact Hf |].
  refine (Forall2_impl _ _ _ _ _ Hrows). intros feat r _ Hrow.
  destruct (indiana_row_inv _ _ Hrow)
    as (props & geo & coords & tpims & c0 & a0 & status & H).
  decompose [and] H. clear H.
  intros geo' cs Hgeo Hcs.
  assert (geo' = geo) by congruence; subst geo'.
  assert (coords = JList cs) by congruence; subst coords.
  repeat match goal with
         | Hc : coordinate (JList cs) _ = Ok _ |- _ =>
             unfold coordinate, py_len, py_index in Hc; cbn [bind] in Hc
         end.
  destruct (2 <=? Z.of_nat (List.length cs)) eqn:Hb.
  - apply Z.leb_le in Hb. split; intros Hlen; [lia |].
    split.
    + destruct (nth_error cs 0); congruence.
    + destruct (nth_error cs 1); congruence.
  - apply Z.leb_gt in Hb. split; intros Hlen; [| lia].
    split; congruence.
Qed.

Lemma C8_coordinates_witness :
  exists feats,
    features_of
      (JDict [("features",
               JList [JDict [("geometry",
                              JDict [("coordinates",
                                      JList [JFloat (-86.5)%float; JFloat 39.75%float])])];
                      JDict [("geometry",
                              JDict [("coordinates", JList [JFloat (-86.5)%float])])]])])
    = Ok feats
    /\ Forall2 coordinates_mapped feats
         [Row (JStr "Indiana") (JStr "") (JStr "") (JStr "") (JStr "")
              (JFloat 39.75%float) (JFloat (-86.5)%float) JNull JNull
              (JStr "") (JStr "") (JStr "") (JStr "");
          Row (JStr "Indiana") (JStr "") (JStr "") (JStr "") (JStr "")
              JNull JNull JNull JNull (JStr "") (JStr "") (JStr "") (JStr "")].
Proof.
  apply (C8_coordinates _ JNull).
  reflexivity.
Defined.

(* ================================================================= *)
(** ** C10: the dynamic payload of the GeoJSON feed *)

(** C10: [parse_indiana] returns the same rows, or raises the same
    exception, whatever its second argument is. *)
Theorem C10_dynamic_payload_unused (static_data dynamic1 dynamic2 : json) :
  parse_indiana static_data dynamic1 = parse_indiana static_data dynamic2.
Proof.
  reflexivity.
Qed.

(** The same at the level of a run: two runs whose fetches agree on every
    address but the dynamic feed of Indiana parse to the same rows, whether
    that fetch answers or fails. *)
Lemma indiana_dynamic_unused_by_run (w1 w2 : world) :
  (forall url, url <> "https://content.trafficwise.org/json/tpims.json" ->
               fetch_json w1 url = fetch_json w2 url) ->
  parse_all (fst (fetch_all w1 FEEDS)) = parse_all (fst (fetch_all w2 FEEDS)).
Proof.
  intros Hsame. unfold FEEDS. cbn [fetch_all fetch_state].
  rewrite <- (Hsame "https://truckparking.travelmidwest.com/TPIMS_Dynamic.json")
    by (intros H; discriminate H).
  rewrite <- (Hsame "https://truckparking.travelmidwest.com/TPIMS_Static.json")
    by (intros H; discriminate H).
  rewrite <- (Hsame "https://content.trafficwise.org/json/rest_area.json")
    by (intros H; discriminate H).
  rewrite <- (Hsame "http://www.trimarc.org/dat/tpims/TPIMS_Dynamic.json")
    by (intros H; discriminate H).
  rewrite <- (Hsame "http://www.trimarc.org/dat/tpims/TPIMS_Static.json")
    by (intros H; discriminate H).
  rewrite <- (Hsame "http://iris.dot.state.mn.us/iris/TPIMS_dynamic")
    by (intros H; discriminate H).
  rewrite <- (Hsame "http://iris.dot.state.mn.us/iris/TPIMS_static")
    by (intros H; discriminate H).
  destruct (fetch_json w1 "https://truckparking.travelmidwest.com/TPIMS_Dynamic.json");
  destruct (fetch_json w1 "https://truckparking.travelmidwest.com/TPIMS_Static.json");
  destruct (fetch_json w1 "https://content.trafficwise.org/json/rest_area.json");
  destruct (fetch_json w1 "http://www.trimarc.org/dat/tpims/TPIMS_Dynamic.json");
  destruct (fetch_json w1 "http://www.trimarc.org/dat/tpims/TPIMS_Static.json");
  destruct (fetch_json w1 "http://iris.dot.state.mn.us/iris/TPIMS_dynamic");
  destruct (fetch_json w1 "http://iris.dot.state.mn.us/iris/TPIMS_static");
  destruct (fetch_json w1 "https://content.trafficwise.org/json/tpims.json");
  destruct (fetch_json w2 "https://content.trafficwise.org/json/tpims.json");
  reflexivity.
Qed.

(* ================================================================= *)
(** ** C5: the poll timestamp *)

Lemma holds_on_spec (f : Z -> bool) (lo n y : Z) :
  holds_on f lo n = true -> lo <= y < lo + n -> f y = true.
Proof.
  unfold holds_on. rewrite forallb_forall. intros H Hy.
  replace y with (lo + Z.of_nat (Z.to_nat (y - lo))) by lia.
  apply H. apply in_seq. lia.
Qed.

Lemma year_four_digits (y : Z) : 1000 <= y <= 9999 -> all_digits 4 (str_of_Z y) = true.
Proof.
  intros Hy.
  apply (holds_on_spec (fun y => all_digits 4 (str_of_Z y)) 1000 9000); [| lia].
  vm_compute. reflexivity.
Qed.

Lemma pad2_two_digits (n : Z) : 0 <= n <= 99 -> all_digits 2 (pad2 n) = true.
Proof.
  intros Hn.
  apply (holds_on_spec (fun n => all_digits 2 (pad2 n)) 0 100); [| lia].
  vm_compute. reflexivity.
Qed.

Lemma all_digits_2 (s : string) :
  all_digits 2 s = true ->
  exists a b, s = String a (String b EmptyString) /\ is_digit a = true /\ is_digit b = true.
Proof.
  destruct s as [| a [| b [| c rest]]]; simpl; intros H; try discriminate H.
  - rewrite andb_false_r in H. discriminate H.
  - exists a, b. apply andb_prop in H. destruct H as [Ha Hb].
    rewrite andb_true_r in Hb. auto.
  - rewrite !andb_false_r in H. discriminate H.
Qed.

Lemma all_digits_4 (s : string) :
  all_digits 4 s = true ->
  exists a b c d,
    s = String a (String b (String c (String d EmptyString))) /\
    is_digit a = true /\ is_digit b = true /\ is_digit c = true /\ is_digit d = true.
Proof.
  destruct s as [| a [| b [| c [| d [| e rest]]]]]; simpl; intros H;
    rewrite ?andb_false_r in H; try discriminate H.
  exists a, b, c, d. rewrite andb_true_r in H.
  apply andb_prop in H. destruct H as [Ha H].
  apply andb_prop in H. destruct H as [Hb H].
  apply andb_prop in H. destruct H as [Hc Hd]. auto.
Qed.

Lemma strftime_shape (t : datetime) :
  clock_reading t -> matches poll_utc_pattern (strftime t) = true.
Proof.
  intros (Hy & Hm & Hd & Hh & Hi & Hs). unfold strftime.
  destruct (all_digits_4 _ (year_four_digits (year t) Hy))
    as (y1 & y2 & y3 & y4 & -> & Hy1 & Hy2 & Hy3 & Hy4).
  destruct (all_digits_2 _ (pad2_two_digits (month t) ltac:(lia)))
    as (m1 & m2 & -> & Hm1 & Hm2).
  destruct (all_digits_2 _ (pad2_two_digits (day t) ltac:(lia)))
    as (d1 & d2 & -> & Hd1 & Hd2).
  destruct (all_digits_2 _ (pad2_two_digits (hour t) ltac:(lia)))
    as (h1 & h2 & -> & Hh1 & Hh2).
  destruct (all_digits_2 _ (pad2_two_digits (minute t) ltac:(lia)))
    as (i1 & i2 & -> & Hi1 & Hi2).
  destruct (all_digits_2 _ (pad2_two_digits (second t) ltac:(lia)))
    as (s1 & s2 & -> & Hs1 & Hs2).
  cbn [append matches poll_utc_pattern].
  rewrite Hy1, Hy2, Hy3, Hy4, Hm1, Hm2, Hd1, Hd2, Hh1, Hh2, Hi1, Hi2, Hs1, Hs2.
  reflexivity.
Qed.

(** C5: the clock is read once, and in a run whose clock reads a year of
    four digits the text made from that reading has the shape
    [^\d{4}-\d{2}-\d{2}T\d{2}:\d{2}:\d{2}Z$] and is the [poll_utc] of every
    row of the run, in [all_rows] and in the batch handed to the
    warehouse. *)
Theorem C5_poll_utc (w : world) :
  clock_reading (now w) ->
  matches poll_utc_pattern (strftime (now w)) = true
  /\ Forall (fun b => poll_utc b = JStr (strftime (now w))) (parsed (main w))
  /\ (forall batch,
         sent (main w) = Some batch ->
         Forall (fun b => poll_utc b = JStr (strftime (now w))) batch).
Proof.
  intros Hclock. split; [apply strftime_shape; exact Hclock |].
  unfold main. destruct (fetch_all w FEEDS) as [raw errors].
  destruct (parse_all raw) as [all_rows | e]; simpl.
  - assert (Hall : Forall (fun b => poll_utc b = JStr (strftime (now w)))
                          (map (BqRow (JStr (strftime (now w)))) all_rows)).
    { apply Forall_forall. intros b Hb. apply in_map_iff in Hb.
      destruct Hb as (r & <- & _). reflexivity. }
    destruct all_rows as [| r rest]; simpl.
    + split; [constructor | intros batch H; discriminate H].
    + assert (Hsent : Forall (fun b => poll_utc b = JStr (strftime (now w)))
                             (map bq_of (map (BqRow (JStr (strftime (now w)))) (r :: rest)))).
      { apply Forall_forall. intros b Hb. apply in_map_iff in Hb.
        destruct Hb as (b' & <- & Hb'). rewrite Forall_forall in Hall.
        simpl. apply Hall. exact Hb'. }
      destruct (insert_rows_json w _); simpl;
        (split; [exact Hall | intros batch H; injection H as <-; exact Hsent]).
  - split; [constructor | intros batch H; discriminate H].
Qed.

Lemma C5_poll_utc_witness :
  clock_reading (now illinois_only)
  /\ matches poll_utc_pattern (strftime (now illinois_only)) = true
  /\ Forall (fun b => poll_utc b = JStr (strftime (now illinois_only)))
            (parsed (main illinois_only))
  /\ (forall batch,
         sent (main illinois_only) = Some batch ->
         Forall (fun b => poll_utc b = JStr (strftime (now illinois_only))) batch).
Proof.
  assert (H : clock_reading (now illinois_only)) by (unfold clock_reading; simpl; lia).
  split; [exact H | apply (C5_poll_utc illinois_only H)].
Defined.

(* ================================================================= *)
(** ** C9: the exit status *)

Lemma fetch_state_errors (w : world) (state : string) (urls : list (string * string)) :
  snd (fetch_state w state urls) = [] <-> Forall (was_fetched w) (map snd urls).
Proof.
  induction urls as [| [feed_type url] rest IH]; simpl.
  - split; [constructor | reflexivity].
  - destruct (fetch_state w state rest) as [payloads errors]. simpl in IH.
    destruct (fetch_json w url) as [data | msg] eqn:Hf; simpl.
    + rewrite IH. split.
      * intros Hrest. constructor; [exists data; exact Hf | exact Hrest].
      * intros Hall. inversion Hall; assumption.
    + split; [discriminate |].
      intros Hall. inversion Hall as [| ? ? [data Hd] _]; subst. congruence.
Qed.

Lemma fetch_all_errors (w : world) (feeds : list (string * list (string * string))) :
  snd (fetch_all w feeds) = []
  <-> Forall (was_fetched w) (flat_map (fun entry => map snd (snd entry)) feeds).
Proof.
  induction feeds as [| [state urls] rest IH]; simpl.
  - split; [constructor | reflexivity].
  - pose proof (fetch_state_errors w state urls) as Hs.
    destruct (fetch_state w state urls) as [payloads errors].
    destruct (fetch_all w rest) as [raw errors']. simpl in *.
    rewrite Forall_app, <- Hs, <- IH. split.
    + intros H. apply app_eq_nil in H. exact H.
    + intros [-> ->]. reflexivity.
Qed.

Lemma main_feed_errors (w : world) : feed_errors (main w) = snd (fetch_all w FEEDS).
Proof.
  unfold main. destruct (fetch_all w FEEDS) as [raw errors].
  destruct (parse_all raw) as [[| r rest] | e]; simpl; try reflexivity.
  destruct (insert_rows_json w _); reflexivity.
Qed.

(** A feed error is on record exactly when one of the eight fetches failed. *)
Lemma feed_errors_recorded (w : world) :
  feed_errors (main w) = [] <-> Forall (was_fetched w) feed_urls.
Proof.
  rewrite main_feed_errors. apply fetch_all_errors.
Qed.




(* ================================================================= *)
(** ** Further properties of [parse_standard] *)

Lemma mapM_raises {A B : Type} (f : A -> result B) (xs : list A) (x : A) (e : exn) :
  In x xs -> f x = Raise e -> exists e', mapM f xs = Raise e'.
Proof.
  induction xs as [| y xs IH]; simpl; intros Hin Hx; [contradiction |].
  destruct (f y) as [b | e0] eqn:Hy; simpl; [| eexists; reflexivity].
  destruct Hin as [-> | Hin]; [congruence |].
  destruct (IH Hin Hx) as (e' & ->). simpl. eexists; reflexivity.
Qed.

Lemma records_of_falsy (l : json) : truthy l = false -> records_of l = Ok [].
Proof.
  unfold records_of, py_or. intros ->. reflexivity.
Qed.

(** Everything the loop body of [parse_standard] puts into the row. *)
Lemma standard_row_fields (st : json) (lookup : pydict) (s : json) (r : row) :
  standard_row st lookup s = Ok r ->
  exists sid dyn static_ts,
    py_get s "siteId" (JStr "") = Ok sid /\
    dict_get lookup sid (JDict []) = Ok dyn /\
    state r = st /\ site_id r = sid /\
    py_get s "name" (JStr "") = Ok (name r) /\
    py_get s "relevantHighway" (JStr "") = Ok (highway r) /\
    py_get s "directionOfTravel" (JStr "") = Ok (direction r) /\
    py_get dyn "trend" (JStr "") = Ok (trend r) /\
    py_get s "timeStamp" (JStr "") = Ok static_ts /\
    py_get dyn "timeStamp" static_ts = Ok (source_timestamp r).
Proof.
  unfold standard_row. intros H.
  do 19 bind_inv H. injection H as <-. simpl.
  exists x, x2, x16. repeat split; assumption.
Qed.

(** X1.  Without static records there are no rows: when the static list is
    [None], empty or any other false value, and every dynamic record is a
    mapping with a scalar identifier, [parse_standard] returns the empty
    list. *)
Theorem standard_without_static (st sl dl : json) (ds : list json) :
  truthy sl = false ->
  records_of dl = Ok ds ->
  Forall (fun d => keyed_record d = true) ds ->
  parse_standard st sl dl = Ok [].
Proof.
  intros Hsl Hds Hkeyed. unfold parse_standard.
  rewrite Hds. cbn [bind].
  destruct (build_lookup_keyed ds Hkeyed []) as (lookup & ->). cbn [bind].
  rewrite (records_of_falsy sl Hsl). reflexivity.
Qed.

Lemma standard_without_static_witness :
  parse_standard (JStr "Kentucky") JNull
    (JList [JDict [("siteId", JStr "A1"); ("reportedAvailable", JInt 4)]]) = Ok [].
Proof.
  apply (standard_without_static _ _ _
           [JDict [("siteId", JStr "A1"); ("reportedAvailable", JInt 4)]]).
  - reflexivity.
  - reflexivity.
  - repeat constructor.
Defined.

Lemma build_lookup_unkeyed (ds : list json) :
  Exists (fun d => keyed_record d = false) ds ->
  forall acc, exists e,
    build_lookup ds acc = Raise e /\ (e = AttributeError \/ e = TypeError).
Proof.
  induction ds as [| d ds IH]; intros Hex acc; [inversion Hex |].
  simpl. unfold keyed_record in *.
  destruct d as [| | | | | | fs];
    try (exists AttributeError; split; [reflexivity | left; reflexivity]).
  simpl. unfold dict_setitem.
  destruct (hashable (match assoc "siteId" fs with Some x => x | None => JStr "" end))
    eqn:Hh; simpl.
  - apply IH. inversion Hex as [? ? Hd | ? ? Hrest]; subst; [| exact Hrest].
    simpl in Hd. rewrite Hh in Hd. discriminate Hd.
  - exists TypeError. split; [reflexivity | right; reflexivity].
Qed.

(** X2.  The dynamic list is read through before any static record is: one
    dynamic record that is no mapping, or whose identifier is a list or a
    mapping, makes [parse_standard] raise [AttributeError] or [TypeError]
    whatever the static list holds, empty included. *)
Theorem standard_dynamic_read_first (st sl dl : json) (ds : list json) :
  records_of dl = Ok ds ->
  Exists (fun d => keyed_record d = false) ds ->
  exists e, parse_standard st sl dl = Raise e /\ (e = AttributeError \/ e = TypeError).
Proof.
  intros Hds Hex. unfold parse_standard. rewrite Hds. cbn [bind].
  destruct (build_lookup_unkeyed ds Hex []) as (e & -> & He).
  exists e. split; [reflexivity | exact He].
Qed.

Lemma standard_dynamic_read_first_witness :
  exists e,
    parse_standard (JStr "Kentucky") (JList [])
      (JList [JDict [("siteId", JStr "A1")]; JStr "maintenance"]) = Raise e
    /\ (e = AttributeError \/ e = TypeError).
Proof.
  apply (standard_dynamic_read_first _ _ _
           [JDict [("siteId", JStr "A1")]; JStr "maintenance"]).
  - reflexivity.
  - right. left. reflexivity.
Defined.

(** X3.  Every row carries the state [parse_standard] was called with and
    the identifier, name, highway and direction of its static record as
    they are, text or not; rows come one per static record in the order of
    the static list. *)
Theorem standard_static_passthrough (st sl dl : json) (rows : list row) :
  parse_standard st sl dl = Ok rows ->
  exists ss, records_of sl = Ok ss /\ Forall2 (static_passthrough st) ss rows.
Proof.
  intros Hp.
  destruct (parse_standard_rows _ _ _ _ Hp) as (ds & lookup & ss & _ & _ & Hss & Hrows).
  exists ss. split; [exact Hss |].
  refine (Forall2_impl _ _ _ _ _ Hrows). intros s r _ Hrow.
  destruct (standard_row_fields _ _ _ _ Hrow) as (sid & dyn & ts & H).
  decompose [and] H. unfold static_passthrough.
  repeat split; congruence.
Qed.

Lemma standard_static_passthrough_witness :
  exists ss,
    records_of (JList [JDict [("siteId", JInt 17); ("name", JStr "Rest Stop")];
                       JDict [("siteId", JStr "B2"); ("relevantHighway", JInt 90)]])
    = Ok ss
    /\ Forall2 (static_passthrough (JStr "Minnesota")) ss
         [Row (JStr "Minnesota") (JInt 17) (JStr "Rest Stop") (JStr "") (JStr "")
              JNull JNull JNull JNull (JStr "") (JStr "") (JStr "") (JStr "");
          Row (JStr "Minnesota") (JStr "B2") (JStr "") (JInt 90) (JStr "")
              JNull JNull JNull JNull (JStr "") (JStr "") (JStr "") (JStr "")].
Proof.
  apply (standard_static_passthrough _ _ JNull).
  reflexivity.
Defined.

(** X4.  The capacity of a row is decided by the static record as soon as
    it has the key [capacity], also when the value there is null or does
    not parse, in which case the capacity is null although the dynamic
    record may hold one; the dynamic record is read only when the static
    record lacks the key. *)
Theorem standard_capacity_precedence (st sl dl : json) (rows : list row) :
  parse_standard st sl dl = Ok rows ->
  exists ds lookup ss,
    records_of dl = Ok ds /\ build_lookup ds [] = Ok lookup /\
    records_of sl = Ok ss /\
    Forall2 (capacity_precedence lookup) ss rows.
Proof.
  intros Hp.
  destruct (parse_standard_rows _ _ _ _ Hp) as (ds & lookup & ss & Hds & Hb & Hss & Hrows).
  exists ds, lookup, ss. repeat (split; [assumption |]).
  refine (Forall2_impl _ _ _ _ _ Hrows). intros s r _ Hrow.
  destruct (standard_row_inv _ _ _ _ Hrow)
    as (sid & loc0 & loc & dyn & dc & c0 & a0 & vo & vt & H).
  decompose [and] H. clear H.
  intros fs ->.
  match goal with
  | Hc : py_get (JDict fs) "capacity" dc = Ok c0 |- _ => simpl in Hc; injection Hc as Hc
  end.
  match goal with
  | Hi : int_or_none c0 = Ok _ |- _ => apply int_or_none_coerced in Hi
  end.
  destruct (assoc "capacity" fs) as [v |].
  - subst c0. assumption.
  - subst c0. exists sid, dyn, dc. auto.
Qed.

Lemma standard_capacity_precedence_witness :
  exists ds lookup ss,
    records_of (JList [JDict [("siteId", JStr "A1"); ("capacity", JInt 40)]]) = Ok ds
    /\ build_lookup ds [] = Ok lookup
    /\ records_of (JList [JDict [("siteId", JStr "A1"); ("capacity", JNull)]]) = Ok ss
    /\ Forall2 (capacity_precedence lookup) ss
         [Row (JStr "Illinois") (JStr "A1") (JStr "") (JStr "") (JStr "")
              JNull JNull JNull JNull (JStr "") (JStr "") (JStr "") (JStr "")].
Proof.
  apply (standard_capacity_precedence (JStr "Illinois")).
  reflexivity.
Defined.

(** X5.  The time stamp of a row is the one of the looked-up dynamic
    record when that record has the key [timeStamp], else the one of the
    static record, else the empty text. *)
Theorem standard_timestamp_precedence (st sl dl : json) (rows : list row) :
  parse_standard st sl dl = Ok rows ->
  exists ds lookup ss,
    records_of dl = Ok ds /\ build_lookup ds [] = Ok lookup /\
    records_of sl = Ok ss /\
    Forall2 (timestamp_precedence lookup) ss rows.
Proof.
  intros Hp.
  destruct (parse_standard_rows _ _ _ _ Hp) as (ds & lookup & ss & Hds & Hb & Hss & Hrows).
  exists ds, lookup, ss. repeat (split; [assumption |]).
  refine (Forall2_impl _ _ _ _ _ Hrows). intros s r _ Hrow.
  destruct (standard_row_fields _ _ _ _ Hrow) as (sid & dyn & ts & H).
  decompose [and] H. clear H.
  exists sid, dyn. repeat (split; [assumption |]).
  intros fs dfs -> ->.
  repeat match goal with
         | Hg : py_get (JDict _) "timeStamp" _ = Ok _ |- _ =>
             simpl in Hg; injection Hg as Hg
         end.
  subst ts. symmetry. assumption.
Qed.

Lemma standard_timestamp_precedence_witness :
  exists ds lookup ss,
    records_of (JList [JDict [("siteId", JStr "A1"); ("timeStamp", JStr "09:05")]]) = Ok ds
    /\ build_lookup ds [] = Ok lookup
    /\ records_of (JList [JDict [("siteId", JStr "A1"); ("timeStamp", JStr "08:00")];
                          JDict [("siteId", JStr "B2"); ("timeStamp", JStr "08:30")]])
       = Ok ss
    /\ Forall2 (timestamp_precedence lookup) ss
         [Row (JStr "Illinois") (JStr "A1") (JStr "") (JStr "") (JStr "")
              JNull JNull JNull JNull (JStr "") (JStr "") (JStr "") (JStr "09:05");
          Row (JStr "Illinois") (JStr "B2") (JStr "") (JStr "") (JStr "")
              JNull JNull JNull JNull (JStr "") (JStr "") (JStr "") (JStr "08:30")].
Proof.
  apply (standard_timestamp_precedence (JStr "Illinois")).
  reflexivity.
Defined.

Lemma key_eq_text_right (k : json) (s : string) :
  key_eq k (JStr s) = true -> k = JStr s.
Proof.
  destruct k as [| b | n | f | t | items | fs]; simpl; try discriminate.
  intros H. apply String.eqb_eq in H. subst. reflexivity.
Qed.

Lemma key_eq_text_left (k : json) (s : string) :
  key_eq (JStr s) k = true -> k = JStr s.
Proof.
  destruct k as [| b | n | f | t | items | fs]; simpl; try discriminate.
  intros H. apply String.eqb_eq in H. subst. reflexivity.
Qed.

Lemma key_eq_text_refl (s : string) : key_eq (JStr s) (JStr s) = true.
Proof. unfold key_eq. simpl. apply String.eqb_refl. Qed.

Lemma find_set_same (d : pydict) (id : string) (v : json) :
  find_entry (set_entry d (JStr id) v) (JStr id) = Some v.
Proof.
  induction d as [| [k' v'] rest IH]; simpl.
  - rewrite key_eq_text_refl. reflexivity.
  - destruct (key_eq k' (JStr id)) eqn:Hk; simpl; rewrite Hk; [reflexivity | exact IH].
Qed.

Lemma find_set_other (d : pydict) (k v : json) (id : string) :
  key_eq k (JStr id) = false ->
  find_entry (set_entry d k v) (JStr id) = find_entry d (JStr id).
Proof.
  intros Hk. induction d as [| [k' v'] rest IH]; simpl.
  - rewrite Hk. reflexivity.
  - destruct (key_eq k' k) eqn:Hk'; simpl.
    + destruct (key_eq k' (JStr id)) eqn:Hid; [| reflexivity].
      apply key_eq_text_right in Hid. subst k'.
      apply key_eq_text_left in Hk'. subst k.
      rewrite key_eq_text_refl in Hk. discriminate Hk.
    + destruct (key_eq k' (JStr id)); [reflexivity | exact IH].
Qed.

Lemma build_lookup_app (xs ys : list json) (acc : pydict) :
  build_lookup (xs ++ ys) acc = (acc' <- build_lookup xs acc ;; build_lookup ys acc').
Proof.
  revert acc. induction xs as [| x xs IH]; intros acc; simpl; [reflexivity |].
  destruct (py_get x "siteId" (JStr "")) as [k | e]; simpl; [| reflexivity].
  destruct (dict_setitem acc k x) as [acc' | e]; simpl; [apply IH | reflexivity].
Qed.

Lemma build_lookup_keeps (id : string) (after : list json) :
  no_match after (JStr id) ->
  forall acc lookup,
    build_lookup after acc = Ok lookup ->
    find_entry lookup (JStr id) = find_entry acc (JStr id).
Proof.
  induction after as [| x after IH]; intros Hno acc lookup H; simpl in H.
  - injection H as <-. reflexivity.
  - bind_inv H. bind_inv H.
    unfold dict_setitem in Hx0. destruct (hashable x0); [| discriminate Hx0].
    injection Hx0 as <-.
    rewrite (IH (fun d k Hd => Hno d k (or_intror Hd)) _ _ H).
    apply find_set_other. apply (Hno x x0); [left; reflexivity | exact Hx].
Qed.

(** The dictionary of line 46 returns the last record that carries a text
    identifier. *)
Lemma lookup_last (before after : list json) (d : json) (id : string) (lookup : pydict) :
  py_get d "siteId" (JStr "") = Ok (JStr id) ->
  no_match after (JStr id) ->
  build_lookup (before ++ d :: after) [] = Ok lookup ->
  dict_get lookup (JStr id) (JDict []) = Ok d.
Proof.
  intros Hd Hno Hb. rewrite build_lookup_app in Hb. bind_inv Hb.
  simpl in Hb. rewrite Hd in Hb. simpl in Hb.
  unfold dict_get. simpl.
  rewrite (build_lookup_keeps id after Hno _ _ Hb), find_set_same. reflexivity.
Qed.

(** X6.  When several dynamic records carry the same text identifier, the
    last of them in the list is the one joined: a static record with that
    identifier takes [available_spaces], [trend], [is_open] and
    [trust_data] from it. *)
Theorem standard_last_dynamic_wins
        (st sl : json) (before after : list json) (d : json) (id : string)
        (rows : list row) :
  py_get d "siteId" (JStr "") = Ok (JStr id) ->
  no_match after (JStr id) ->
  parse_standard st sl (JList (before ++ d :: after)) = Ok rows ->
  exists ss,
    records_of sl = Ok ss /\
    Forall2 (fun s r => py_get s "siteId" (JStr "") = Ok (JStr id) -> joined_with d r)
            ss rows.
Proof.
  intros Hd Hno Hp.
  destruct (parse_standard_rows _ _ _ _ Hp) as (ds & lookup & ss & Hds & Hb & Hss & Hrows).
  rewrite records_of_list in Hds. injection Hds as <-.
  exists ss. split; [exact Hss |].
  refine (Forall2_impl _ _ _ _ _ Hrows). intros s r _ Hrow Hsid.
  pose proof (lookup_last _ _ _ _ _ Hd Hno Hb) as Hlast.
  destruct (standard_row_inv _ _ _ _ Hrow)
    as (sid & loc0 & loc & dyn & dc & c0 & a0 & vo & vt & H).
  destruct (standard_row_fields _ _ _ _ Hrow) as (sid' & dyn' & ts & H').
  decompose [and] H. decompose [and] H'. clear H H'.
  assert (sid = JStr id) by congruence. assert (sid' = JStr id) by congruence.
  subst sid sid'.
  assert (dyn = d) by congruence. assert (dyn' = d) by congruence. subst dyn dyn'.
  exists a0, vo, vt. repeat split; auto using int_or_none_coerced.
Qed.

Lemma standard_last_dynamic_wins_witness :
  exists ss,
    records_of (JList [JDict [("siteId", JStr "A1")]]) = Ok ss
    /\ Forall2 (fun s r =>
                  py_get s "siteId" (JStr "") = Ok (JStr "A1") ->
                  joined_with (JDict [("siteId", JStr "A1"); ("reportedAvailable", JInt 3)]) r)
               ss
               [Row (JStr "Illinois") (JStr "A1") (JStr "") (JStr "") (JStr "")
                    JNull JNull JNull (JInt 3) (JStr "") (JStr "") (JStr "") (JStr "")].
Proof.
  apply (standard_last_dynamic_wins (JStr "Illinois") _
           [JDict [("siteId", JStr "A1"); ("reportedAvailable", JInt 9)]]
           [JDict [("siteId", JStr "B2"); ("reportedAvailable", JInt 1)]]
           _ "A1").
  - reflexivity.
  - intros d k [<- | []] Hk. injection Hk as <-. reflexivity.
  - reflexivity.
Defined.

(** X7.  The coercion of lines 58-61, 64-67 and 97-100 raises on infinite
    floats and on nothing else, and what it raises then is
    [OverflowError], which the [except] clause does not list. *)
Theorem coercion_raises_on_infinity (v : json) (e : exn) :
  int_or_none v = Raise e <->
  e = OverflowError /\ exists f sign, v = JFloat f /\ Prim2SF f = S754_infinity sign.
Proof.
  unfold int_or_none. split.
  - destruct (py_int v) as [n | e0] eqn:Hv; simpl; [discriminate |].
    destruct (py_int_raises _ _ Hv) as [-> | [-> | ->]]; simpl; try discriminate.
    intros H. injection H as <-. split; [reflexivity |].
    destruct v as [| b | n | f | s | items | fs]; simpl in Hv; try discriminate Hv.
    + exists f. unfold float_trunc in Hv.
      destruct (Prim2SF f) as [| sign | |]; try discriminate Hv.
      exists sign. split; reflexivity.
    + destruct (int_of_str s); discriminate Hv.
  - intros (-> & f & sign & -> & Hf). simpl. unfold float_trunc. rewrite Hf.
    reflexivity.
Qed.

(** X8.  One static record whose [capacity] is an infinite float makes
    [parse_standard] raise: no row of the state is returned, whatever the
    other records hold. *)
Theorem standard_infinite_capacity
        (st sl dl : json) (ss : list json) (s : json) (f : float) (sign : bool) :
  records_of sl = Ok ss ->
  In s ss ->
  py_get s "capacity" JNull = Ok (JFloat f) ->
  Prim2SF f = S754_infinity sign ->
  exists e, parse_standard st sl dl = Raise e.
Proof.
  intros Hss Hin Hcap Hf. unfold parse_standard.
  destruct (records_of dl) as [ds | e]; simpl; [| eexists; reflexivity].
  destruct (build_lookup ds []) as [lookup | e]; simpl; [| eexists; reflexivity].
  rewrite Hss. simpl.
  assert (Hrow : exists e, standard_row st lookup s = Raise e).
  { unfold standard_row.
    destruct s as [| | | | | | fs]; try discriminate Hcap.
    simpl py_get. cbn [bind].
    destruct (normalize_location _) as [loc | e]; simpl; [| eexists; reflexivity].
    destruct (dict_get lookup _ _) as [dyn | e]; simpl; [| eexists; reflexivity].
    destruct (py_get dyn "capacity" JNull) as [dc | e]; simpl; [| eexists; reflexivity].
    simpl in Hcap. destruct (assoc "capacity" fs) as [c |]; [| discriminate Hcap].
    injection Hcap as ->.
    assert (Hr : int_or_none (JFloat f) = Raise OverflowError).
    { apply coercion_raises_on_infinity. split; [reflexivity |].
      exists f, sign. split; [reflexivity | exact Hf]. }
    rewrite Hr. simpl. eexists; reflexivity. }
  destruct Hrow as (e & Hrow).
  apply (mapM_raises _ _ _ _ Hin Hrow).
Qed.

Lemma standard_infinite_capacity_witness :
  exists e,
    parse_standard (JStr "Illinois")
      (JList [JDict [("siteId", JStr "A1"); ("capacity", JInt 50)];
              JDict [("siteId", JStr "B2"); ("capacity", JFloat infinity)]])
      (JList []) = Raise e.
Proof.
  apply (standard_infinite_capacity _ _ _
           [JDict [("siteId", JStr "A1"); ("capacity", JInt 50)];
            JDict [("siteId", JStr "B2"); ("capacity", JFloat infinity)]]
           (JDict [("siteId", JStr "B2"); ("capacity", JFloat infinity)])
           infinity false).
  - reflexivity.
  - right. left. reflexivity.
  - reflexivity.
  - reflexivity.
Defined.

(** X9.  The coordinates of a row are read from [location] when it is a
    mapping and from its first element when it is a list that starts with
    a mapping, the further elements never being read; a location of any
    other shape that yields a row (a text, a number, null, the empty list)
    leaves both coordinates null, and no row comes from a list whose first
    element is not a mapping. *)
Theorem standard_location_read (st sl dl : json) (rows : list row) :
  parse_standard st sl dl = Ok rows ->
  exists ss, records_of sl = Ok ss /\ Forall2 location_read ss rows.
Proof.
  intros Hp.
  destruct (parse_standard_rows _ _ _ _ Hp) as (ds & lookup & ss & _ & _ & Hss & Hrows).
  exists ss. split; [exact Hss |].
  refine (Forall2_impl _ _ _ _ _ Hrows). intros s r _ Hrow.
  destruct (standard_row_inv _ _ _ _ Hrow)
    as (sid & loc0 & loc & dyn & dc & c0 & a0 & vo & vt & H).
  decompose [and] H. clear H.
  intros loc' Hloc'. assert (loc' = loc0) by congruence. subst loc'.
  pose proof (normalize_location_cases loc0) as Hcases.
  destruct loc0 as [| | | | | [| first rest] | m];
    rewrite Hcases in *;
    repeat match goal with
           | Hn : Ok _ = Ok loc |- _ => injection Hn as <-
           end;
    try (destruct first);
    repeat match goal with
           | Hg : py_get _ _ JNull = Ok _ |- _ => simpl in Hg
           end;
    try discriminate;
    split; congruence.
Qed.

Lemma standard_location_read_witness :
  exists ss,
    records_of
      (JList [JDict [("location", JList [JDict [("latitude", JInt 41)];
                                         JDict [("latitude", JInt 99)]])];
              JDict [("location", JStr "41.5,-88.0")]])
    = Ok ss
    /\ Forall2 location_read ss
         [Row (JStr "Illinois") (JStr "") (JStr "") (JStr "") (JStr "")
              (JInt 41) JNull JNull JNull (JStr "") (JStr "") (JStr "") (JStr "");
          Row (JStr "Illinois") (JStr "") (JStr "") (JStr "") (JStr "")
              JNull JNull JNull JNull (JStr "") (JStr "") (JStr "") (JStr "")].
Proof.
  apply (standard_location_read (JStr "Illinois") _ JNull).
  reflexivity.
Defined.

(* ================================================================= *)
(** ** Further properties of [parse_indiana] *)

(** Everything the loop body of [parse_indiana] puts into the row besides
    the counts and the coordinates. *)
Lemma indiana_row_fields (feat : json) (r : row) :
  indiana_row feat = Ok r ->
  exists props tpims feat_id location route,
    py_get feat "properties" (JDict []) = Ok props /\
    py_get props "tpims" (JDict []) = Ok tpims /\
    state r = JStr "Indiana" /\ trend r = JStr "" /\ trust_data r = JStr "" /\
    py_get feat "id" (JStr "") = Ok feat_id /\
    py_get props "site_label" feat_id = Ok (site_id r) /\
    py_get props "site_area_location" (JStr "") = Ok location /\
    py_get props "site_area_description" location = Ok (name r) /\
    py_get props "site_route" (JStr "") = Ok route /\
    py_get tpims "route" route = Ok (highway r) /\
    direction_of props = Ok (direction r) /\
    py_get tpims "last_data" (JStr "") = Ok (source_timestamp r).
Proof.
  unfold indiana_row. intros H.
  do 19 bind_inv H. injection H as <-. simpl.
  exists x, x2, x8, x10, x12. repeat split; assumption.
Qed.

(** X10.  Static data that is no mapping (a list, a text, null) or a
    mapping without the key [features] gives no rows and no exception;
    [features] present but null, a number or a boolean gives [TypeError]. *)
Theorem indiana_without_features (sd dd : json) :
  (is_dict sd = false -> parse_indiana sd dd = Ok [])
  /\ (forall fs, sd = JDict fs -> assoc "features" fs = None ->
                 parse_indiana sd dd = Ok [])
  /\ (forall fs v, sd = JDict fs -> assoc "features" fs = Some v ->
                   match v with
                   | JNull | JBool _ | JInt _ | JFloat _ => True
                   | _ => False
                   end ->
                   parse_indiana sd dd = Raise TypeError).
Proof.
  unfold parse_indiana, features_of. repeat split.
  - intros ->. reflexivity.
  - intros fs -> Hf. simpl. rewrite Hf. reflexivity.
  - intros fs v -> Hf Hv. simpl. rewrite Hf. destruct v; try contradiction; reflexivity.
Qed.

Lemma indiana_without_features_witness :
  parse_indiana (JList [JStr "Service Unavailable"]) JNull = Ok []
  /\ parse_indiana (JDict [("type", JStr "FeatureCollection")]) JNull = Ok []
  /\ parse_indiana (JDict [("features", JNull)]) JNull = Raise TypeError.
Proof.
  split; [| split].
  - apply (proj1 (indiana_without_features _ _)). reflexivity.
  - apply (proj1 (proj2 (indiana_without_features _ _)) [("type", JStr "FeatureCollection")]);
      reflexivity.
  - apply (proj2 (proj2 (indiana_without_features _ _)) [("features", JNull)] JNull);
      [reflexivity | reflexivity | exact I].
Defined.

(** X11.  Every row of [parse_indiana] has the state ["Indiana"], an empty
    [trend] and an empty [trust_data], and its [available_spaces] is null
    or an integer that is not negative. *)
Theorem indiana_row_invariants (sd dd : json) (rows : list row) :
  parse_indiana sd dd = Ok rows ->
  Forall (fun r => indiana_constants r /\ spaces_not_negative r) rows.
Proof.
  intros Hp. destruct (parse_indiana_rows _ _ _ Hp) as (feats & _ & Hrows).
  apply Forall_forall. intros r Hin.
  destruct (Forall2_in_right _ _ _ _ Hrows Hin) as (feat & _ & Hrow).
  destruct (indiana_row_fields _ _ Hrow) as (props & tpims & fid & loc & route & H).
  destruct (indiana_row_inv _ _ Hrow)
    as (props' & geo & coords & tpims' & c0 & a0 & status & H').
  decompose [and] H. decompose [and] H'. clear H H'.
  split; [repeat split; assumption |].
  match goal with
  | Hs : spaces_or_none a0 = Ok _ |- _ => apply spaces_or_none_spec in Hs; rename Hs into Hsp
  end.
  unfold spaces_not_negative.
  destruct (py_int a0) as [n | e]; [| left; apply Hsp].
  destruct (n <? 0) eqn:Hn; [left; exact Hsp |].
  right. exists n. split; [apply Z.ltb_ge; exact Hn | exact Hsp].
Qed.

Lemma indiana_row_invariants_witness :
  Forall (fun r => indiana_constants r /\ spaces_not_negative r)
         [Row (JStr "Indiana") (JStr "") (JStr "") (JStr "") (JStr "")
              JNull JNull JNull JNull (JStr "") (JStr "") (JStr "") (JStr "");
          Row (JStr "Indiana") (JStr "") (JStr "") (JStr "") (JStr "")
              JNull JNull JNull (JInt 3) (JStr "") (JStr "") (JStr "") (JStr "")].
Proof.
  apply (indiana_row_invariants
           (JDict [("features",
                    JList [JDict [("properties",
                                   JDict [("tpims", JDict [("spaces_available", JInt (-1))])])];
                           JDict [("properties",
                                   JDict [("tpims", JDict [("spaces_available", JStr "3")])])]])])
           JNull).
  reflexivity.
Defined.

(** X12.  The capacity of a GeoJSON row is [int] of the [capacity] of the
    nested status block and null when [int] raises; unlike the available
    spaces it is not filtered, so a negative capacity stays in the row. *)
Theorem indiana_capacity_unfiltered (sd dd : json) (rows : list row) :
  parse_indiana sd dd = Ok rows ->
  exists feats, features_of sd = Ok feats /\ Forall2 capacity_unfiltered feats rows.
Proof.
  intros Hp. destruct (parse_indiana_rows _ _ _ Hp) as (feats & Hf & Hrows).
  exists feats. split; [exact Hf |].
  refine (Forall2_impl _ _ _ _ _ Hrows). intros feat r _ Hrow.
  destruct (indiana_row_inv _ _ Hrow)
    as (props & geo & coords & tpims & c0 & a0 & status & H).
  decompose [and] H. clear H.
  intros props' tpims' v Hprops Htpims Hv.
  assert (props' = props) by congruence; subst props'.
  assert (tpims' = tpims) by congruence; subst tpims'.
  assert (v = c0) by congruence; subst v.
  apply int_or_none_coerced. assumption.
Qed.

Lemma indiana_capacity_unfiltered_witness :
  exists feats,
    features_of
      (JDict [("features",
               JList [JDict [("properties",
                              JDict [("tpims", JDict [("capacity", JInt (-1));
                                                      ("spaces_available", JInt (-1))])])]])])
    = Ok feats
    /\ Forall2 capacity_unfiltered feats
         [Row (JStr "Indiana") (JStr "") (JStr "") (JStr "") (JStr "")
              JNull JNull (JInt (-1)) JNull (JStr "") (JStr "") (JStr "") (JStr "")].
Proof.
  apply (indiana_capacity_unfiltered _ JNull).
  reflexivity.
Defined.

Lemma eq_str_true (v : json) (s : string) : eq_str v s = true <-> v = JStr s.
Proof.
  destruct v as [| | | | t | |]; simpl; split; try discriminate.
  - intros H. apply String.eqb_eq in H. subst. reflexivity.
  - intros H. injection H as ->. apply String.eqb_refl.
Qed.

(** X13.  In a GeoJSON row [is_open] is ["True"] exactly when the status
    of the site is the text ["open"] and ["False"] exactly when it is the
    text ["closed"], letter for letter. *)
Theorem indiana_open_iff_status (sd dd : json) (rows : list row) :
  parse_indiana sd dd = Ok rows ->
  exists feats, features_of sd = Ok feats /\ Forall2 open_iff_status feats rows.
Proof.
  intros Hp. destruct (parse_indiana_rows _ _ _ Hp) as (feats & Hf & Hrows).
  exists feats. split; [exact Hf |].
  refine (Forall2_impl _ _ _ _ _ Hrows). intros feat r _ Hrow.
  destruct (indiana_row_inv _ _ Hrow)
    as (props & geo & coords & tpims & c0 & a0 & status & H).
  decompose [and] H. clear H.
  intros props' status' Hprops Hstatus.
  assert (props' = props) by congruence; subst props'.
  assert (status' = status) by congruence; subst status'.
  replace (is_open r) with (open_of_status status) by auto.
  unfold open_of_status.
  destruct (eq_str status "open") eqn:Ho.
  - apply eq_str_true in Ho. subst status. split; split; intros H;
      try reflexivity; discriminate H.
  - destruct (eq_str status "closed") eqn:Hc.
    + apply eq_str_true in Hc. subst status. split; split; intros H;
        try reflexivity; discriminate H.
    + split; split; intros H; try discriminate H;
        apply eq_str_true in H; congruence.
Qed.

Lemma indiana_open_iff_status_witness :
  exists feats,
    features_of
      (JDict [("features",
               JList [JDict [("properties", JDict [("site_area_status", JStr "Open")])]])])
    = Ok feats
    /\ Forall2 open_iff_status feats
         [Row (JStr "Indiana") (JStr "") (JStr "") (JStr "") (JStr "")
              JNull JNull JNull JNull (JStr "") (JStr "") (JStr "") (JStr "")].
Proof.
  apply (indiana_open_iff_status _ JNull).
  reflexivity.
Defined.

Lemma index_dash (s : string) :
  match index 0 "-" s with
  | Some i =>
      has_char "-" s = true /\ has_char "-" (substring 0 i s) = false /\
      exists rest, s = substring 0 i s ++ "-" ++ rest
  | None => has_char "-" s = false
  end.
Proof.
  induction s as [| c s IH]; [reflexivity |].
  cbn [index prefix].
  destruct (ascii_dec "-" c) as [<- | Hc].
  - destruct s; simpl; (split; [reflexivity | split; [reflexivity | eexists; reflexivity]]).
  - assert (Hcb : Ascii.eqb c "-" = false)
      by (apply Ascii.eqb_neq; congruence).
    destruct (index 0 "-" s) as [i |].
    + destruct IH as (Hs & Hpre & rest & Hrest).
      cbn [has_char substring]. rewrite Hcb, Hs, Hpre.
      repeat split. exists rest. simpl. f_equal. exact Hrest.
    + cbn [has_char]. rewrite Hcb, IH. reflexivity.
Qed.

(** X14.  For a label that is a text, the direction of a GeoJSON row is
    the part of the label before its first dash: it holds no dash, the
    label is the direction, a dash and a remainder, and a label without a
    dash gives the empty direction, not the label. *)
Theorem indiana_direction_before_dash (sd dd : json) (rows : list row) :
  parse_indiana sd dd = Ok rows ->
  exists feats, features_of sd = Ok feats /\ Forall2 direction_before_dash feats rows.
Proof.
  intros Hp. destruct (parse_indiana_rows _ _ _ Hp) as (feats & Hf & Hrows).
  exists feats. split; [exact Hf |].
  refine (Forall2_impl _ _ _ _ _ Hrows). intros feat r _ Hrow.
  destruct (indiana_row_fields _ _ Hrow) as (props & tpims & fid & loc & route & H).
  decompose [and] H. clear H.
  intros props' label Hprops Hlabel.
  assert (props' = props) by congruence; subst props'.
  match goal with
  | Hd : direction_of props = Ok _ |- _ =>
      unfold direction_of in Hd; rewrite Hlabel in Hd;
      cbn [bind py_contains py_split_first] in Hd; unfold is_substring in Hd;
      rename Hd into Hdir
  end.
  pose proof (index_dash label) as Hidx.
  destruct (index 0 "-" label) as [i |].
  - destruct Hidx as (Hhas & Hpre & rest & Hrest).
    injection Hdir as Hdir.
    exists (substring 0 i label). repeat split; auto.
    + intros _. exists rest. exact Hrest.
    + congruence.
  - injection Hdir as Hdir. exists "". repeat split; auto. congruence.
Qed.

Lemma indiana_direction_before_dash_witness :
  exists feats,
    features_of
      (JDict [("features",
               JList [JDict [("properties", JDict [("site_area_label", JStr "NB-I-90")])];
                      JDict [("properties", JDict [("site_area_label", JStr "I90")])]])])
    = Ok feats
    /\ Forall2 direction_before_dash feats
         [Row (JStr "Indiana") (JStr "") (JStr "") (JStr "") (JStr "NB")
              JNull JNull JNull JNull (JStr "") (JStr "") (JStr "") (JStr "");
          Row (JStr "Indiana") (JStr "") (JStr "") (JStr "") (JStr "")
              JNull JNull JNull JNull (JStr "") (JStr "") (JStr "") (JStr "")].
Proof.
  apply (indiana_direction_before_dash _ JNull).
  reflexivity.
Defined.

(** X15.  In a GeoJSON row the identifier is [site_label] of the properties
    when that key is present, whatever it holds, and the [id] of the
    feature otherwise; likewise the name prefers [site_area_description] to
    [site_area_location], the highway the [route] of the status block to
    [site_route], and the time stamp is [last_data] of the status block;
    a missing key gives the empty text, a key that holds null gives null. *)
Theorem indiana_fallback_chains (sd dd : json) (rows : list row) :
  parse_indiana sd dd = Ok rows ->
  exists feats, features_of sd = Ok feats /\ Forall2 indiana_fallbacks feats rows.
Proof.
  intros Hp. destruct (parse_indiana_rows _ _ _ Hp) as (feats & Hf & Hrows).
  exists feats. split; [exact Hf |].
  refine (Forall2_impl _ _ _ _ _ Hrows). intros feat r _ Hrow.
  destruct (indiana_row_fields _ _ Hrow) as (props & tpims & fid & loc & route & H).
  decompose [and] H. clear H.
  intros ffs pfs tfs -> Hprops Htpims.
  assert (props = JDict pfs) by congruence; subst props.
  assert (tpims = JDict tfs) by congruence; subst tpims.
  repeat match goal with
         | Hg : py_get (JDict _) _ _ = Ok _ |- _ => simpl in Hg; injection Hg as Hg
         end.
  subst fid loc route. repeat split; congruence.
Qed.

Lemma indiana_fallback_chains_witness :
  exists feats,
    features_of
      (JDict [("features",
               JList [JDict [("id", JInt 7);
                             ("properties",
                              JDict [("site_label", JNull);
                                     ("site_area_location", JStr "Mile 12");
                                     ("site_route", JStr "I-65")])]])])
    = Ok feats
    /\ Forall2 indiana_fallbacks feats
         [Row (JStr "Indiana") JNull (JStr "Mile 12") (JStr "I-65") (JStr "")
              JNull JNull JNull JNull (JStr "") (JStr "") (JStr "") (JStr "")].
Proof.
  apply (indiana_fallback_chains _ JNull).
  reflexivity.
Defined.

Lemma broken_feature_raises (feat : json) :
  broken_feature feat = true -> indiana_row feat = Raise AttributeError.
Proof.
  unfold broken_feature, indiana_row.
  destruct feat as [| | | | | | ffs]; try reflexivity.
  simpl py_get. cbn [bind].
  destruct (assoc "geometry" ffs) as [[| | | | | | gfs] |];
    destruct (assoc "properties" ffs) as [[| | | | | | pfs] |];
    try reflexivity; simpl; try discriminate;
    destruct (assoc "tpims" pfs) as [[| | | | | | tfs] |];
    try reflexivity; discriminate.
Qed.

(** X16.  One feature that is no mapping, or whose [properties],
    [geometry] or nested status block is present without being a mapping
    (a null geometry, say), makes [parse_indiana] raise: no row of the
    collection is returned. *)
Theorem indiana_broken_feature (sd dd : json) (feats : list json) :
  features_of sd = Ok feats ->
  Exists (fun feat => broken_feature feat = true) feats ->
  exists e, parse_indiana sd dd = Raise e.
Proof.
  intros Hf Hex. unfold parse_indiana. rewrite Hf. cbn [bind].
  apply Exists_exists in Hex. destruct Hex as (feat & Hin & Hb).
  apply (mapM_raises _ _ _ _ Hin (broken_feature_raises _ Hb)).
Qed.

Lemma indiana_broken_feature_witness :
  exists e,
    parse_indiana
      (JDict [("features",
               JList [JDict [("id", JInt 1);
                             ("geometry", JDict [("coordinates",
                                                  JList [JInt (-86); JInt 39])])];
                      JDict [("id", JInt 2); ("geometry", JNull)]])])
      JNull = Raise e.
Proof.
  apply (indiana_broken_feature _ _
           [JDict [("id", JInt 1);
                   ("geometry", JDict [("coordinates", JList [JInt (-86); JInt 39])])];
            JDict [("id", JInt 2); ("geometry", JNull)]]).
  - reflexivity.
  - right. left. reflexivity.
Defined.

(* ================================================================= *)
(** ** Further properties of [main] *)

Lemma fetch_state_payloads (w : world) (state : string) (urls : list (string * string)) :
  fst (fetch_state w state urls)
  = map (fun feed => (fst feed, payload w (snd feed))) urls.
Proof.
  induction urls as [| [feed_type url] rest IH]; simpl; [reflexivity |].
  destruct (fetch_state w state rest) as [payloads errors]. simpl in IH.
  unfold payload. destruct (fetch_json w url); simpl; rewrite IH; reflexivity.
Qed.

Lemma fetch_all_raw (w : world) (feeds : list (string * list (string * string))) :
  fst (fetch_all w feeds)
  = map (fun entry =>
           (fst entry, map (fun feed => (fst feed, payload w (snd feed))) (snd entry)))
        feeds.
Proof.
  induction feeds as [| [state urls] rest IH]; simpl; [reflexivity |].
  pose proof (fetch_state_payloads w state urls) as Hs.
  destruct (fetch_state w state urls) as [payloads errors].
  destruct (fetch_all w rest) as [raw errors']. simpl in *.
  rewrite Hs, IH. reflexivity.
Qed.

Lemma fetch_state_count (w : world) (state : string) (urls : list (string * string)) :
  List.length (snd (fetch_state w state urls))
  = List.length (filter (fetch_failed w) (map snd urls)).
Proof.
  induction urls as [| [feed_type url] rest IH]; simpl; [reflexivity |].
  destruct (fetch_state w state rest) as [payloads errors]. simpl in IH.
  unfold fetch_failed at 1. destruct (fetch_json w url); simpl; rewrite IH; reflexivity.
Qed.

Lemma fetch_all_count (w : world) (feeds : list (string * list (string * string))) :
  List.length (snd (fetch_all w feeds))
  = List.length (filter (fetch_failed w)
                        (flat_map (fun entry => map snd (snd entry)) feeds)).
Proof.
  induction feeds as [| [state urls] rest IH]; simpl; [reflexivity |].
  pose proof (fetch_state_count w state urls) as Hs.
  destruct (fetch_state w state urls) as [payloads errors].
  destruct (fetch_all w rest) as [raw errors']. simpl in *.
  rewrite filter_app, !length_app, Hs, IH. reflexivity.
Qed.

Lemma list_or_empty_raw (w : world) (state feed : string) :
  In state ["Illinois"; "Kentucky"; "Minnesota"] ->
  In feed ["static"; "dynamic"] ->
  list_or_empty (raw_of w) state feed = Ok (as_list (payload w (url_of state feed))).
Proof.
  intros Hs Hf. unfold list_or_empty, as_list, url_of, raw_of.
  repeat (destruct Hs as [<- | Hs]; [| try contradiction]);
    repeat (destruct Hf as [<- | Hf]; [| try contradiction]);
    simpl;
    match goal with
    | |- context [is_list ?p] => destruct (is_list p); reflexivity
    end.
Qed.

Lemma indiana_payloads (w : world) :
  subscript (raw_of w) "Indiana"
  = Ok [("dynamic", payload w (url_of "Indiana" "dynamic"));
        ("static", payload w (url_of "Indiana" "static"))].
Proof. reflexivity. Qed.

Lemma two_payloads (a b : json) :
  subscript [("dynamic", a); ("static", b)] "static" = Ok b
  /\ subscript [("dynamic", a); ("static", b)] "dynamic" = Ok a.
Proof. split; reflexivity. Qed.

(** X17.  What a run parses is what the four states parse to, one after
    the other and appended in the order Illinois, Kentucky, Minnesota,
    Indiana: a standard state is parsed from its two payloads, each
    replaced by the empty list when the fetch failed or returned something
    that is no list; Indiana is parsed only when its static payload is true
    and gives no rows otherwise; the first exception ends the parse. *)
Theorem run_parses_state_by_state (w : world) :
  parse_all (fst (fetch_all w FEEDS))
  = (illinois <- state_rows w "Illinois" ;;
     kentucky <- state_rows w "Kentucky" ;;
     minnesota <- state_rows w "Minnesota" ;;
     indiana <- indiana_rows w ;;
     Ok (illinois ++ kentucky ++ minnesota ++ indiana)%list).
Proof.
  rewrite fetch_all_raw. fold (raw_of w).
  unfold parse_all, parse_standard_states.
  rewrite !list_or_empty_raw by (simpl; tauto). cbn [bind].
  fold (state_rows w "Illinois") (state_rows w "Kentucky") (state_rows w "Minnesota").
  destruct (state_rows w "Illinois") as [il | e]; [| reflexivity]. cbn [bind].
  fold (state_rows w "Kentucky").
  destruct (state_rows w "Kentucky") as [ky | e]; [| reflexivity]. cbn [bind].
  fold (state_rows w "Minnesota").
  destruct (state_rows w "Minnesota") as [mn | e]; [| reflexivity]. cbn [bind].
  unfold indiana_rows. rewrite indiana_payloads. cbn [bind].
  rewrite (proj1 (two_payloads _ _)). cbn [bind].
  destruct (truthy (payload w (url_of "Indiana" "static"))).
  - rewrite (proj2 (two_payloads _ _)). cbn [bind].
    destruct (parse_indiana _ _) as [ind | e]; [| reflexivity]. cbn [bind].
    simpl app. rewrite <- !app_assoc. reflexivity.
  - cbn [bind]. simpl app. rewrite app_nil_r, <- app_assoc. reflexivity.
Qed.

Lemma main_unfold (w : world) :
  main w
  = match parse_all (fst (fetch_all w FEEDS)) with
    | Raise e => Run (Uncaught e) [] None (snd (fetch_all w FEEDS))
    | Ok rows =>
        let all_rows := map (BqRow (JStr (strftime (now w)))) rows in
        match all_rows with
        | [] => Run (SysExit (match snd (fetch_all w FEEDS) with [] => 0 | _ => 1 end))
                    all_rows None (snd (fetch_all w FEEDS))
        | _ =>
            match insert_rows_json w (map bq_of all_rows) with
            | [] => Run Returned all_rows (Some (map bq_of all_rows)) (snd (fetch_all w FEEDS))
            | _ => Run (SysExit 1) all_rows (Some (map bq_of all_rows))
                       (snd (fetch_all w FEEDS))
            end
        end
    end.
Proof.
  unfold main. destruct (fetch_all w FEEDS) as [raw errors]. reflexivity.
Qed.

Lemma fields_of_batch (stamp : json) (rows : list row) :
  map fields (map bq_of (map (BqRow stamp) rows)) = rows.
Proof.
  induction rows as [| r rows IH]; simpl; [reflexivity |].
  rewrite IH. destruct r; reflexivity.
Qed.

(** X18.  The warehouse is called at most once and never with an empty
    batch; the batch it gets holds exactly the parsed rows, all of them
    and in their order, each with the thirteen values the normalizer gave
    it. *)
Theorem sink_receives_parsed_rows (w : world) (batch : list bq_row) :
  sent (main w) = Some batch ->
  batch <> []
  /\ parse_all (fst (fetch_all w FEEDS)) = Ok (map fields batch)
  /\ map fields (parsed (main w)) = map fields batch.
Proof.
  rewrite main_unfold.
  destruct (parse_all (fst (fetch_all w FEEDS))) as [rows | e]; [| discriminate].
  destruct rows as [| r rows]; [discriminate |].
  cbv zeta. cbn [map].
  match goal with
  | |- context [insert_rows_json w ?b] => destruct (insert_rows_json w b)
  end; cbn [sent parsed]; intros H; injection H as <-;
    (split; [discriminate |]);
    change (bq_of (BqRow (JStr (strftime (now w))) r)
              :: map bq_of (map (BqRow (JStr (strftime (now w)))) rows))
      with (map bq_of (map (BqRow (JStr (strftime (now w)))) (r :: rows)));
    change (BqRow (JStr (strftime (now w))) r
              :: map (BqRow (JStr (strftime (now w)))) rows)
      with (map (BqRow (JStr (strftime (now w)))) (r :: rows));
    rewrite fields_of_batch, map_map; simpl; rewrite map_id; split; reflexivity.
Qed.

Lemma sink_receives_parsed_rows_witness :
  [BqRow (JStr "2026-11-04T07:05:09Z")
         (Row (JStr "Illinois") (JStr "A1") (JStr "Rest Stop") (JStr "") (JStr "")
              JNull JNull (JInt 50) (JInt 12) (JStr "") (JStr "True") (JStr "") (JStr ""))]
  <> []
  /\ parse_all (fst (fetch_all illinois_only FEEDS))
     = Ok (map fields
               [BqRow (JStr "2026-11-04T07:05:09Z")
                      (Row (JStr "Illinois") (JStr "A1") (JStr "Rest Stop") (JStr "")
                           (JStr "") JNull JNull (JInt 50) (JInt 12) (JStr "")
                           (JStr "True") (JStr "") (JStr ""))])
  /\ map fields (parsed (main illinois_only))
     = map fields
           [BqRow (JStr "2026-11-04T07:05:09Z")
                  (Row (JStr "Illinois") (JStr "A1") (JStr "Rest Stop") (JStr "")
                       (JStr "") JNull JNull (JInt 50) (JInt 12) (JStr "")
                       (JStr "True") (JStr "") (JStr ""))].
Proof.
  apply (sink_receives_parsed_rows illinois_only).
  reflexivity.
Defined.

(** X19.  A fetch that fails is recorded once and nothing else is: the
    run holds as many feed errors as addresses of [FEEDS] failed, and every
    address is tried, the failure of one not ending the loop. *)
Theorem feed_errors_counted (w : world) :
  List.length (feed_errors (main w))
  = List.length (filter (fetch_failed w) feed_urls).
Proof.
  rewrite main_feed_errors. apply fetch_all_count.
Qed.

Lemma all_failed_payload (w : world) (url : string) :
  fetch_failed w url = true -> payload w url = JNull.
Proof.
  unfold fetch_failed, payload. destruct (fetch_json w url); [discriminate | reflexivity].
Qed.

(** X20.  When every fetch fails, whatever the messages, the run parses
    no row, calls no warehouse, records eight feed errors and exits with
    status 1. *)
Theorem every_fetch_failing (w : world) :
  Forall (fun url => fetch_failed w url = true) feed_urls ->
  ended (main w) = SysExit 1
  /\ parsed (main w) = []
  /\ sent (main w) = None
  /\ List.length (feed_errors (main w)) = 8%nat.
Proof.
  intros Hall.
  assert (Hcount : List.length (snd (fetch_all w FEEDS)) = 8%nat).
  { rewrite fetch_all_count. fold feed_urls.
    replace (filter (fetch_failed w) feed_urls) with feed_urls; [reflexivity |].
    symmetry. apply forallb_filter_id. apply forallb_forall.
    rewrite Forall_forall in Hall. exact Hall. }
  assert (Hparse : parse_all (fst (fetch_all w FEEDS)) = Ok []).
  { rewrite run_parses_state_by_state. unfold state_rows, indiana_rows.
    rewrite Forall_forall in Hall.
    rewrite !all_failed_payload by (apply Hall; simpl; tauto).
    reflexivity. }
  rewrite main_unfold, Hparse. cbv zeta. cbn [map].
  destruct (snd (fetch_all w FEEDS)) as [| msg msgs]; [discriminate Hcount |].
  repeat split. exact Hcount.
Qed.

Lemma every_fetch_failing_witness :
  ended (main all_feeds_down) = SysExit 1
  /\ parsed (main all_feeds_down) = []
  /\ sent (main all_feeds_down) = None
  /\ List.length (feed_errors (main all_feeds_down)) = 8%nat.
Proof.
  apply (every_fetch_failing all_feeds_down).
  repeat constructor.
Defined.

(** X21.  The exit status is 0 or 1, and 0 has two ways only: the
    warehouse was handed a batch and reported no error, or no call was
    made because every feed was fetched and together they parsed to no row
    at all. *)
Theorem exit_zero_means (w : world) :
  (exit_status (ended (main w)) = 0 \/ exit_status (ended (main w)) = 1)
  /\ (exit_status (ended (main w)) = 0 ->
      (exists batch, sent (main w) = Some batch /\ insert_rows_json w batch = [])
      \/ (sent (main w) = None
          /\ parse_all (fst (fetch_all w FEEDS)) = Ok []
          /\ Forall (was_fetched w) feed_urls)).
Proof.
  pose proof (fetch_all_errors w FEEDS) as Herr. fold feed_urls in Herr.
  rewrite main_unfold.
  destruct (parse_all (fst (fetch_all w FEEDS))) as [rows | e];
    [| split; [right; reflexivity | discriminate]].
  destruct rows as [| r rows]; cbv zeta; cbn [map].
  - destruct (snd (fetch_all w FEEDS)) as [| msg msgs]; cbn.
    + split; [left; reflexivity |]. intros _. right.
      repeat split. apply Herr. reflexivity.
    + split; [right; reflexivity | discriminate].
  - match goal with
    | |- context [insert_rows_json w ?b] => destruct (insert_rows_json w b) eqn:Hins
    end; cbn.
    + split; [left; reflexivity |]. intros _. left. eexists. split; [reflexivity | exact Hins].
    + split; [right; reflexivity | discriminate].
Qed.

Lemma exit_zero_means_witness :
  (exists batch,
      sent (main illinois_only) = Some batch
      /\ insert_rows_json illinois_only batch = [])
  \/ (sent (main illinois_only) = None
      /\ parse_all (fst (fetch_all illinois_only FEEDS)) = Ok []
      /\ Forall (was_fetched illinois_only) feed_urls).
Proof.
  apply (proj2 (exit_zero_means illinois_only)).
  reflexivity.
Defined.

(** X22.  The parse is all or nothing: an exception raised while one
    state is parsed is caught nowhere, so the run ends with status 1 and
    without a call of the warehouse, and the rows the other states parsed
    to are lost with it. *)
Theorem one_state_raising_loses_the_run (w : world) (e : exn) :
  (exists state,
      In state ["Illinois"; "Kentucky"; "Minnesota"] /\ state_rows w state = Raise e)
  \/ indiana_rows w = Raise e ->
  (exists e', ended (main w) = Uncaught e')
  /\ sent (main w) = None
  /\ parsed (main w) = []
  /\ exit_status (ended (main w)) = 1.
Proof.
  intros Hraise.
  assert (Hparse : exists e', parse_all (fst (fetch_all w FEEDS)) = Raise e').
  { rewrite run_parses_state_by_state.
    destruct (state_rows w "Illinois") as [il | e1] eqn:Hil; [| eexists; reflexivity].
    destruct (state_rows w "Kentucky") as [ky | e2] eqn:Hky; [| eexists; reflexivity].
    destruct (state_rows w "Minnesota") as [mn | e3] eqn:Hmn; [| eexists; reflexivity].
    destruct (indiana_rows w) as [ind | e4] eqn:Hind; [| eexists; reflexivity].
    exfalso. destruct Hraise as [(state & Hin & Hs) | Hi]; [| discriminate Hi].
    simpl in Hin. destruct Hin as [<- | [<- | [<- | []]]]; congruence. }
  destruct Hparse as (e' & Hparse).
  rewrite main_unfold, Hparse. cbn.
  repeat split. exists e'. reflexivity.
Qed.

Lemma one_state_raising_loses_the_run_witness :
  state_rows indiana_without_geometry "Illinois"
  = Ok [Row (JStr "Illinois") (JStr "A1") (JStr "") (JStr "") (JStr "")
            JNull JNull (JInt 50) JNull (JStr "") (JStr "") (JStr "") (JStr "")]
  /\ (exists e', ended (main indiana_without_geometry) = Uncaught e')
  /\ sent (main indiana_without_geometry) = None
  /\ parsed (main indiana_without_geometry) = []
  /\ exit_status (ended (main indiana_without_geometry)) = 1.
Proof.
  split; [reflexivity |].
  apply (one_state_raising_loses_the_run indiana_without_geometry AttributeError).
  right. reflexivity.
Defined.

(** Steps through the calls of a loop body: a call that raises ends the
    body, one that returns is named and the body goes on. *)
Ltac step_or_raise :=
  match goal with
  | |- exists e, bind ?c _ = Raise e =>
      let H := fresh "Hstep" in
      destruct c eqn:H; cbn [bind]; [| eexists; reflexivity]
  end.

Lemma unreadable_static_raises (st : json) (lookup : pydict) (s : json) :
  readable_static s = false -> exists e, standard_row st lookup s = Raise e.
Proof.
  unfold readable_static, keyed_record, standard_row. intros Hs.
  destruct s as [| | | | | | fs]; try (eexists; reflexivity).
  simpl py_get in *. cbn [bind].
  destruct (normalize_location _) as [loc |] eqn:Hloc; cbn [bind];
    [| eexists; reflexivity].
  destruct (dict_get lookup _ _) as [dyn |] eqn:Hdyn; cbn [bind];
    [| eexists; reflexivity].
  unfold dict_get in Hdyn. destruct (hashable _) eqn:Hh; [| discriminate Hdyn].
  simpl in Hs. rewrite Hh in Hs. simpl in Hs.
  assert (Hget : py_get loc "latitude" JNull = Raise AttributeError).
  { destruct (match assoc "location" fs with Some x => x | None => JDict [] end)
      as [| | | | | [| first rest] | m]; simpl in Hs; try discriminate Hs.
    simpl in Hloc. injection Hloc as <-.
    destruct first; try discriminate Hs; reflexivity. }
  repeat step_or_raise. congruence.
Qed.

(** X23.  One static record that is no mapping, whose identifier is a
    list or a mapping, or whose location is a list starting with something
    else than a mapping makes [parse_standard] raise: no row of the state
    is returned, whatever the other records hold. *)
Theorem standard_unreadable_static (st sl dl : json) (ss : list json) :
  records_of sl = Ok ss ->
  Exists (fun s => readable_static s = false) ss ->
  exists e, parse_standard st sl dl = Raise e.
Proof.
  intros Hss Hex. unfold parse_standard.
  destruct (records_of dl) as [ds | e]; simpl; [| eexists; reflexivity].
  destruct (build_lookup ds []) as [lookup | e]; simpl; [| eexists; reflexivity].
  rewrite Hss. simpl.
  apply Exists_exists in Hex. destruct Hex as (s & Hin & Hs).
  destruct (unreadable_static_raises st lookup s Hs) as (e & Hrow).
  apply (mapM_raises _ _ _ _ Hin Hrow).
Qed.

Lemma standard_unreadable_static_witness :
  exists e,
    parse_standard (JStr "Minnesota")
      (JList [JDict [("siteId", JStr "A1")];
              JDict [("siteId", JStr "B2"); ("location", JList [JStr "45.0,-93.2"])]])
      (JList []) = Raise e.
Proof.
  apply (standard_unreadable_static _ _ _
           [JDict [("siteId", JStr "A1")];
            JDict [("siteId", JStr "B2"); ("location", JList [JStr "45.0,-93.2"])]]).
  - reflexivity.
  - right. left. reflexivity.
Defined.

Lemma indiana_dynamic_unused_by_run_witness :
  parse_all (fst (fetch_all illinois_only FEEDS))
  = parse_all (fst (fetch_all indiana_dynamic_answers FEEDS)).
Proof.
  apply (indiana_dynamic_unused_by_run illinois_only indiana_dynamic_answers).
  intros url Hne. apply String.eqb_neq in Hne.
  unfold indiana_dynamic_answers. simpl. rewrite Hne. reflexivity.
Defined.
